(** * Session server of aidol-vtuber: message routing and backend adapters

    A shallow embedding of
      - [open_llm_vtuber/websocket_handler.py] (class [WebSocketHandler]) and
      - [open_llm_vtuber/adapters/orphiq_adapter.py] (class [OrphiqAdapter]),
    followed by the properties of the session layer that the specification
    states about them.

    Conventions.
      - Decoded JSON is a [value]; an outbound frame is the [value] handed to
        [json.dumps] (the frame text is its serialisation).
      - Python objects that are mutated in place and held from several places
        (service contexts, adapters) live in an object store and are named by
        a reference; dictionaries of the handler hold references.
      - A coroutine is a computation in the monad [M]: it threads the process
        state and either returns or raises.  Every [await] runs to completion
        before the next statement, a handler is one step.
      - Collaborators whose code is outside the two modules above (chat group
        operations, conversation tasks, history store, engines, numpy, ...)
        are the fields of the class [Externals]. *)

From Stdlib Require Import ZArith String List Bool Lia.
From Stdlib.Strings Require Import Byte.
From stdpp Require Import base gmap strings list pretty.

Set Warnings "-register-all".
Local Open Scope Z_scope.

(** ** Python values *)

(** Decoded JSON documents.  JSON numbers with a fractional part are not
    represented. *)
Inductive value : Type :=
| VNone
| VBool (b : bool)
| VInt (n : Z)
| VStr (s : string)
| VList (l : list value)
| VDict (d : list (string * value)).

(** [d.get(k)] on a dict given as association list. *)
Fixpoint dict_get (k : string) (d : list (string * value)) : option value :=
  match d with
  | [] => None
  | (k', v) :: d' => if String.eqb k k' then Some v else dict_get k d'
  end.

(** [d.get(k, default)]. *)
Definition dict_get_default (k : string) (dflt : value)
    (d : list (string * value)) : value :=
  match dict_get k d with
  | Some v => v
  | None => dflt
  end.

(** [v.get(k)] when [v] is a dict. *)
Definition field (k : string) (v : value) : option value :=
  match v with
  | VDict d => dict_get k d
  | _ => None
  end.

(** Truth value of a decoded JSON document ([bool(v)]). *)
Definition truthy (v : value) : bool :=
  match v with
  | VNone => false
  | VBool b => b
  | VInt n => negb (Z.eqb n 0)
  | VStr s => negb (String.eqb s "")
  | VList l => match l with [] => false | _ => true end
  | VDict d => match d with [] => false | _ => true end
  end.

(** [v in choices] for a list of string literals. *)
Definition in_strings (v : value) (choices : list string) : bool :=
  match v with
  | VStr s => existsb (String.eqb s) choices
  | _ => false
  end.

(** Keys usable in a dict lookup: lists and dicts are unhashable. *)
Definition hashable (v : value) : bool :=
  match v with
  | VList _ | VDict _ => false
  | _ => true
  end.

(** ** Exceptions *)

(** The subclasses of [Exception] that the two modules distinguish.
    [BaseException]s outside [Exception] (task cancellation) are not
    represented: no [except] clause of the two modules can catch them. *)
Inductive exn_class : Type :=
| WebSocketDisconnect
| JSONDecodeError
| ValueError
| KeyError
| TypeError
| AttributeError
| RuntimeError
| OtherError.

Record exn : Type := Exn { exn_kind : exn_class; exn_str : string }.

Inductive outcome (A : Type) : Type :=
| Ok (a : A)
| Raise (e : exn).
Arguments Ok {A} a.
Arguments Raise {A} e.

Definition is_WebSocketDisconnect (e : exn) : bool :=
  match exn_kind e with WebSocketDisconnect => true | _ => false end.

Definition is_JSONDecodeError (e : exn) : bool :=
  match exn_kind e with JSONDecodeError => true | _ => false end.

(** ** Generators *)

(** A finite generator: the items it yields, then a normal end ([None]) or
    an exception ([Some e]). *)
Record gen (A : Type) : Type := Gen { items : list A; finish : option exn }.
Arguments Gen {A} items finish.
Arguments items {A} g.
Arguments finish {A} g.

(** ** Bytes and audio samples *)

Global Instance byte_eq_dec : EqDecision byte := Byte.byte_eq_dec.

Definition PAUSE : list byte := list_byte_of_string "<|PAUSE|>".
Definition RESUME : list byte := list_byte_of_string "<|RESUME|>".

(** One little-endian two's-complement 16-bit sample. *)
Definition int16_of_bytes (lo hi : byte) : Z :=
  let u := Z.of_N (Byte.to_N lo) + 256 * Z.of_N (Byte.to_N hi) in
  if Z.ltb u 32768 then u else u - 65536.

(** [np.frombuffer(b, dtype=np.int16)]: pairs of bytes in order; [None] when
    the length is odd (numpy raises [ValueError]). *)
Fixpoint frombuffer_int16 (b : list byte) : option (list Z) :=
  match b with
  | [] => Some []
  | [_] => None
  | lo :: hi :: b' =>
      match frombuffer_int16 b' with
      | Some l => Some (int16_of_bytes lo hi :: l)
      | None => None
      end
  end.

(** ** Service context objects *)

Record CharacterConfig : Type := {
  conf_name : string;
  conf_uid : string;
  character_name : string;
  human_name : string;
  avatar : string
}.

Record SystemConfig : Type := { config_alts_dir : string }.

Record Live2dModel : Type := {
  model_info : value;
  live2d_model_name : string
}.

(** Engines are opaque handles; what they do is given by [Externals]. *)
Definition engine : Type := nat.

Record ServiceContext : Type := {
  config : value;
  system_config : SystemConfig;
  character_config : CharacterConfig;
  live2d_model : Live2dModel;
  asr_engine : engine;
  tts_engine : engine;
  vad_engine : engine;
  agent_engine : engine;
  translate_engine : engine;
  history_uid : value
}.

Definition context_history_uid (c : ServiceContext) : value := history_uid c.

Definition set_history_uid (h : value) (c : ServiceContext) : ServiceContext :=
  {| config := config c; system_config := system_config c;
     character_config := character_config c; live2d_model := live2d_model c;
     asr_engine := asr_engine c; tts_engine := tts_engine c;
     vad_engine := vad_engine c; agent_engine := agent_engine c;
     translate_engine := translate_engine c; history_uid := h |}.

Global Instance CharacterConfig_inhabited : Inhabited CharacterConfig :=
  populate {| conf_name := ""; conf_uid := ""; character_name := "";
              human_name := ""; avatar := "" |}.

Global Instance ServiceContext_inhabited : Inhabited ServiceContext :=
  populate {| config := VNone; system_config := {| config_alts_dir := "" |};
              character_config := inhabitant;
              live2d_model := {| model_info := VNone; live2d_model_name := "" |};
              asr_engine := 0%nat; tts_engine := 0%nat; vad_engine := 0%nat;
              agent_engine := 0%nat; translate_engine := 0%nat;
              history_uid := VNone |}.

(** ** Adapter objects *)

(** References into the object stores, and transport handles. *)
Definition ref : Type := nat.
Definition WebSocket : Type := nat.

(** The closure [websocket_send] that [_get_adapter] builds: it captures the
    handler and the client id, and looks the connection up when called. *)
Inductive sender : Type :=
| send_to (client_uid : string).

(** Instance attributes of [OrphiqAdapter]. *)
Record OrphiqAdapter : Type := {
  context : ref;
  websocket_send : sender;
  _current_expression : value;
  _current_motion : value
}.

Global Instance OrphiqAdapter_inhabited : Inhabited OrphiqAdapter :=
  populate {| context := 0%nat; websocket_send := send_to "";
              _current_expression := VNone; _current_motion := VNone |}.

(** Outputs of the agent engine, as [generate_text] tells them apart. *)
Inductive agent_output : Type :=
| SentenceOutput (display_text_text : string)
| AudioOutput (transcript : string)
| UnknownOutput.

(** ** Chat groups *)

Record Group : Type := {
  group_id : string;
  owner_uid : string;
  members : gset string
}.

Record ChatGroupManager : Type := {
  client_group_map : gmap string string;
  groups : gmap string Group
}.

(** An [asyncio.Task] handle. *)
Definition Task : Type := nat.

(** ** Process state and the coroutine monad *)

(** Computations over a state [St] that return or raise.  The state reached
    when an exception is raised is kept: Python does not roll back. *)
Definition ST (St A : Type) : Type := St -> outcome A * St.

Definition ret {St A : Type} (a : A) : ST St A := fun s => (Ok a, s).

Definition raise {St A : Type} (e : exn) : ST St A := fun s => (Raise e, s).

Definition bind {St A B : Type} (m : ST St A) (k : A -> ST St B) : ST St B :=
  fun s =>
    match m s with
    | (Ok a, s') => k a s'
    | (Raise e, s') => (Raise e, s')
    end.

(** [try: body except Exception as e: handler e]. *)
Definition try_except {St A : Type} (body : ST St A) (handler : exn -> ST St A)
    : ST St A :=
  fun s =>
    match body s with
    | (Ok a, s') => (Ok a, s')
    | (Raise e, s') => handler e s'
    end.

Definition gets {St A : Type} (f : St -> A) : ST St A := fun s => (Ok (f s), s).

Definition modify {St : Type} (f : St -> St) : ST St unit := fun s => (Ok tt, f s).

(** Lift an outcome that needs no state. *)
Definition of_outcome {St A : Type} (o : outcome A) : ST St A := fun s => (o, s).

(** Run a computation on a component of the state. *)
Definition zoom {St T A : Type} (get : St -> T) (set : T -> St -> St)
    (m : ST T A) : ST St A :=
  fun s => let '(o, t) := m (get s) in (o, set t s).

Notation "'let*' x ':=' m 'in' k" := (bind m (fun x => k))
  (at level 10, x name, m at level 100, k at level 200).
Notation "m '>>' k" := (bind m (fun _ => k))
  (at level 90, right associativity).

(** [for x in xs: body x]. *)
Fixpoint for_each {St A : Type} (xs : list A) (body : A -> ST St unit)
    : ST St unit :=
  match xs with
  | [] => ret tt
  | x :: xs' => body x >> for_each xs' body
  end.

(** [for x in g: body x] and [async for x in g: body x] over a generator:
    the items in order, then the generator's own ending. *)
Definition for_gen {St A : Type} (g : gen A) (body : A -> ST St unit)
    : ST St unit :=
  for_each (items g) body >>
  match finish g with
  | None => ret tt
  | Some e => raise e
  end.

(** The same loops when the body updates a local variable [acc]. *)
Fixpoint fold_each {St A B : Type} (xs : list A) (acc : B)
    (body : B -> A -> ST St B) : ST St B :=
  match xs with
  | [] => ret acc
  | x :: xs' => let* acc' := body acc x in fold_each xs' acc' body
  end.

Definition fold_gen {St A B : Type} (g : gen A) (acc : B)
    (body : B -> A -> ST St B) : ST St B :=
  let* acc' := fold_each (items g) acc body in
  match finish g with
  | None => ret acc'
  | Some e => raise e
  end.

Definition state_of {St A : Type} (r : outcome A * St) : St := snd r.
Definition outcome_of {St A : Type} (r : outcome A * St) : outcome A := fst r.

Section Runtime.

Context {sample ExtState : Type}.

(** What the collaborators of the handler can reach: the dictionaries that
    the handler passes to them, the service contexts, the transport and
    their own private state [ext]. *)
Record Session : Type := {
  client_connections : gmap string WebSocket;
  client_contexts : gmap string ref;
  context_objs : gmap ref ServiceContext;
  next_context : ref;
  chat_group_manager : ChatGroupManager;
  current_conversation_tasks : gmap string (option Task);
  received_data_buffers : gmap string (list sample);
  (** frames delivered so far, oldest first *)
  sent : list (WebSocket * value);
  (** sockets on which [send_text] raises, with what it raises *)
  closed : gmap WebSocket exn;
  ext : ExtState
}.

(** The process: the session part and what only [WebSocketHandler] holds. *)
Record World : Type := {
  session : Session;
  default_context_cache : ServiceContext;
  client_adapters : gmap string ref;
  backend_modes : gmap string value;
  adapter_objs : gmap ref OrphiqAdapter;
  next_adapter : ref
}.

Definition set_client_connections (f : gmap string WebSocket -> gmap string WebSocket)
    (s : Session) : Session :=
  {| client_connections := f (client_connections s);
     client_contexts := client_contexts s; context_objs := context_objs s;
     next_context := next_context s;
     chat_group_manager := chat_group_manager s;
     current_conversation_tasks := current_conversation_tasks s;
     received_data_buffers := received_data_buffers s;
     sent := sent s; closed := closed s; ext := ext s |}.

Definition set_client_contexts (f : gmap string ref -> gmap string ref)
    (s : Session) : Session :=
  {| client_connections := client_connections s;
     client_contexts := f (client_contexts s); context_objs := context_objs s;
     next_context := next_context s;
     chat_group_manager := chat_group_manager s;
     current_conversation_tasks := current_conversation_tasks s;
     received_data_buffers := received_data_buffers s;
     sent := sent s; closed := closed s; ext := ext s |}.

Definition set_context_objs (f : gmap ref ServiceContext -> gmap ref ServiceContext)
    (s : Session) : Session :=
  {| client_connections := client_connections s;
     client_contexts := client_contexts s; context_objs := f (context_objs s);
     next_context := next_context s;
     chat_group_manager := chat_group_manager s;
     current_conversation_tasks := current_conversation_tasks s;
     received_data_buffers := received_data_buffers s;
     sent := sent s; closed := closed s; ext := ext s |}.

Definition set_next_context (n : ref) (s : Session) : Session :=
  {| client_connections := client_connections s;
     client_contexts := client_contexts s; context_objs := context_objs s;
     next_context := n;
     chat_group_manager := chat_group_manager s;
     current_conversation_tasks := current_conversation_tasks s;
     received_data_buffers := received_data_buffers s;
     sent := sent s; closed := closed s; ext := ext s |}.

Definition set_chat_group_manager (f : ChatGroupManager -> ChatGroupManager)
    (s : Session) : Session :=
  {| client_connections := client_connections s;
     client_contexts := client_contexts s; context_objs := context_objs s;
     next_context := next_context s;
     chat_group_manager := f (chat_group_manager s);
     current_conversation_tasks := current_conversation_tasks s;
     received_data_buffers := received_data_buffers s;
     sent := sent s; closed := closed s; ext := ext s |}.

Definition set_current_conversation_tasks
    (f : gmap string (option Task) -> gmap string (option Task))
    (s : Session) : Session :=
  {| client_connections := client_connections s;
     client_contexts := client_contexts s; context_objs := context_objs s;
     next_context := next_context s;
     chat_group_manager := chat_group_manager s;
     current_conversation_tasks := f (current_conversation_tasks s);
     received_data_buffers := received_data_buffers s;
     sent := sent s; closed := closed s; ext := ext s |}.

Definition set_received_data_buffers
    (f : gmap string (list sample) -> gmap string (list sample))
    (s : Session) : Session :=
  {| client_connections := client_connections s;
     client_contexts := client_contexts s; context_objs := context_objs s;
     next_context := next_context s;
     chat_group_manager := chat_group_manager s;
     current_conversation_tasks := current_conversation_tasks s;
     received_data_buffers := f (received_data_buffers s);
     sent := sent s; closed := closed s; ext := ext s |}.

Definition set_sent (f : list (WebSocket * value) -> list (WebSocket * value))
    (s : Session) : Session :=
  {| client_connections := client_connections s;
     client_contexts := client_contexts s; context_objs := context_objs s;
     next_context := next_context s;
     chat_group_manager := chat_group_manager s;
     current_conversation_tasks := current_conversation_tasks s;
     received_data_buffers := received_data_buffers s;
     sent := f (sent s); closed := closed s; ext := ext s |}.

Definition set_ext (x : ExtState) (s : Session) : Session :=
  {| client_connections := client_connections s;
     client_contexts := client_contexts s; context_objs := context_objs s;
     next_context := next_context s;
     chat_group_manager := chat_group_manager s;
     current_conversation_tasks := current_conversation_tasks s;
     received_data_buffers := received_data_buffers s;
     sent := sent s; closed := closed s; ext := x |}.

Definition set_closed (f : gmap WebSocket exn -> gmap WebSocket exn)
    (s : Session) : Session :=
  {| client_connections := client_connections s;
     client_contexts := client_contexts s; context_objs := context_objs s;
     next_context := next_context s;
     chat_group_manager := chat_group_manager s;
     current_conversation_tasks := current_conversation_tasks s;
     received_data_buffers := received_data_buffers s;
     sent := sent s; closed := f (closed s); ext := ext s |}.

Definition set_session (x : Session) (w : World) : World :=
  {| session := x; default_context_cache := default_context_cache w;
     client_adapters := client_adapters w; backend_modes := backend_modes w;
     adapter_objs := adapter_objs w; next_adapter := next_adapter w |}.

Definition set_client_adapters (f : gmap string ref -> gmap string ref)
    (w : World) : World :=
  {| session := session w; default_context_cache := default_context_cache w;
     client_adapters := f (client_adapters w); backend_modes := backend_modes w;
     adapter_objs := adapter_objs w; next_adapter := next_adapter w |}.

Definition set_backend_modes (f : gmap string value -> gmap string value)
    (w : World) : World :=
  {| session := session w; default_context_cache := default_context_cache w;
     client_adapters := client_adapters w; backend_modes := f (backend_modes w);
     adapter_objs := adapter_objs w; next_adapter := next_adapter w |}.

Definition set_adapter_objs (f : gmap ref OrphiqAdapter -> gmap ref OrphiqAdapter)
    (w : World) : World :=
  {| session := session w; default_context_cache := default_context_cache w;
     client_adapters := client_adapters w; backend_modes := backend_modes w;
     adapter_objs := f (adapter_objs w); next_adapter := next_adapter w |}.

Definition set_next_adapter (n : ref) (w : World) : World :=
  {| session := session w; default_context_cache := default_context_cache w;
     client_adapters := client_adapters w; backend_modes := backend_modes w;
     adapter_objs := adapter_objs w; next_adapter := n |}.

(** Coroutines of the handler, of its collaborators, of the engines. *)
Abbreviation M := (ST World).
Abbreviation S := (ST Session).
Abbreviation X := (ST ExtState).

Definition in_session {A : Type} (m : S A) : M A := zoom session set_session m.
Definition in_ext {A : Type} (m : X A) : S A := zoom ext set_ext m.

(** [await websocket.send_text(json.dumps(msg))]. *)
Definition send_text (websocket : WebSocket) (msg : value) : S unit :=
  fun s =>
    match closed s !! websocket with
    | Some e => (Raise e, s)
    | None => (Ok tt, set_sent (fun l => l ++ [(websocket, msg)]) s)
    end.

(** [d[k]] on a dictionary of the handler. *)
Definition key_error (k : string) : exn := Exn KeyError ("'" +:+ k +:+ "'").

Definition subscript {St V : Type} (d : St -> gmap string V) (k : string)
    : ST St V :=
  fun s =>
    match d s !! k with
    | Some v => (Ok v, s)
    | None => (Raise (key_error k), s)
    end.

End Runtime.

Arguments Session : clear implicits.
Arguments World : clear implicits.

(** ** Collaborators *)

(** Callbacks that the handler passes to its collaborators. *)
Definition send_group_update_fn (sample ExtState : Type) : Type :=
  WebSocket -> string -> ST (Session sample ExtState) unit.
Definition broadcast_fn (sample ExtState : Type) : Type :=
  list string -> value -> option string -> ST (Session sample ExtState) unit.

(** Code that the two modules import or call and that lies outside them.
    Module-level functions get the dictionaries of the session part, engines
    and stores only their private state. *)
Class Externals (sample ExtState : Type) : Type := {
  (** [str()] of a list or dict, [==] between two lists or two dicts *)
  str_container : value -> string;
  eq_container : value -> value -> bool;
  (** numpy: [.astype(np.float32)] of a 16-bit sample, and
      [np.array(audio, dtype=np.float32)] of a decoded JSON list *)
  astype_float32 : Z -> sample;
  np_array_float32 : value -> outcome (list sample);
  (** chat_group *)
  handle_group_operation :
    option value -> string -> option value ->
    send_group_update_fn sample ExtState -> ST (Session sample ExtState) unit;
  handle_client_disconnect :
    string -> send_group_update_fn sample ExtState ->
    ST (Session sample ExtState) unit;
  chat_group_broadcast_to_group :
    list string -> value -> option string -> ST (Session sample ExtState) unit;
  (** conversations.conversation_handler *)
  handle_conversation_trigger :
    value -> list (string * value) -> string -> ref -> WebSocket ->
    broadcast_fn sample ExtState -> ST (Session sample ExtState) unit;
  handle_group_interrupt :
    string -> value -> broadcast_fn sample ExtState ->
    ST (Session sample ExtState) unit;
  handle_individual_interrupt :
    string -> ref -> value -> ST (Session sample ExtState) unit;
  (** message_handler *)
  message_handler_handle_message : string -> value -> ST ExtState unit;
  message_handler_cleanup_client : string -> ST ExtState unit;
  (** chat_history_manager *)
  get_history_list : string -> ST ExtState value;
  get_history : string -> value -> ST ExtState (list (list (string * value)));
  create_new_history : string -> ST ExtState value;
  delete_history : string -> value -> ST ExtState value;
  (** config_manager.utils *)
  scan_config_alts_directory : string -> ST ExtState value;
  scan_bg_directory : ST ExtState value;
  (** utils.stream_audio: [prepare_audio_payload(audio_path=None,
      display_text=..., actions=None, forwarded=True)] *)
  prepare_audio_payload : value -> outcome value;
  (** service_context *)
  ServiceContext_new : ServiceContext;
  ServiceContext_handle_config_switch :
    ref -> WebSocket -> value -> ST (Session sample ExtState) unit;
  (** engines *)
  set_memory_from_history : engine -> string -> value -> ST ExtState unit;
  detect_speech : engine -> value -> ST ExtState (gen (list byte));
  chat : engine -> value -> ST ExtState (gen agent_output);
  (** conversations.conversation_utils: [create_batch_input(input_text=...,
      images=None, from_name=...)] *)
  create_batch_input : value -> string -> outcome value;
  (** agent.output_types: [Actions(expressions=...).to_dict()] *)
  Actions_to_dict : list value -> outcome value;
  (** asyncio tasks *)
  task_done : Task -> ExtState -> bool;
  task_cancel : Task -> ST ExtState unit
}.

(** [str(v)], as f-strings apply it. *)
Definition py_str {sample ExtState : Type} {E : Externals sample ExtState}
    (v : value) : string :=
  match v with
  | VNone => "None"
  | VBool true => "True"
  | VBool false => "False"
  | VInt n => pretty n
  | VStr s => s
  | _ => str_container v
  end.

(** [v is None]. *)
Definition is_None (v : value) : bool :=
  match v with
  | VNone => true
  | _ => false
  end.

(** [v == s] for a string literal [s]. *)
Definition eq_str (v : value) (s : string) : bool :=
  match v with
  | VStr a => String.eqb a s
  | _ => false
  end.

(** [d.get(k) == s]. *)
Definition opt_eq_str (o : option value) (s : string) : bool :=
  match o with
  | Some v => eq_str v s
  | None => false
  end.

(** [v1 == v2]; [True] and [False] compare as 1 and 0. *)
Definition py_eq {sample ExtState : Type} {E : Externals sample ExtState}
    (v1 v2 : value) : bool :=
  match v1, v2 with
  | VNone, VNone => true
  | VStr a, VStr b => String.eqb a b
  | VBool a, VBool b => Bool.eqb a b
  | VInt a, VInt b => Z.eqb a b
  | VBool a, VInt b => Z.eqb (if a then 1 else 0) b
  | VInt a, VBool b => Z.eqb a (if b then 1 else 0)
  | VList _, VList _ => eq_container v1 v2
  | VDict _, VDict _ => eq_container v1 v2
  | _, _ => false
  end.

(** [len(v)]: numbers, booleans and [None] have no length. *)
Definition py_len (v : value) : outcome nat :=
  match v with
  | VStr s => Ok (String.length s)
  | VList l => Ok (length l)
  | VDict d => Ok (length d)
  | _ => Raise (Exn TypeError "object has no len()")
  end.

(** [loguru] calls leave the process state alone. *)
Definition logger_info {St : Type} (msg : string) : ST St unit := ret tt.
Definition logger_warning {St : Type} (msg : string) : ST St unit := ret tt.
Definition logger_error {St : Type} (msg : string) : ST St unit := ret tt.

(** Generators whose body is a [try]/[except]. *)
Definition gen_raise {A : Type} (e : exn) : gen A := Gen [] (Some e).

Definition gen_try_except {A : Type} (body : gen A) (handler : exn -> gen A)
    : gen A :=
  match finish body with
  | None => body
  | Some e => Gen (items body ++ items (handler e)) (finish (handler e))
  end.

(** ** adapters/orphiq_adapter.py *)

Module OrphiqAdapter.
Section Methods.

Context {sample ExtState : Type} {E : Externals sample ExtState}.

Abbreviation M := (ST (World sample ExtState)).

Definition __init__ (service_context : ref) (websocket_send : sender)
    : OrphiqAdapter :=
  {| context := service_context; websocket_send := websocket_send;
     _current_expression := VNone; _current_motion := VNone |}.

Definition set__current_expression (v : value) (a : OrphiqAdapter)
    : OrphiqAdapter :=
  {| context := context a; websocket_send := websocket_send a;
     _current_expression := v; _current_motion := _current_motion a |}.

Definition set__current_motion (v : value) (a : OrphiqAdapter)
    : OrphiqAdapter :=
  {| context := context a; websocket_send := websocket_send a;
     _current_expression := _current_expression a; _current_motion := v |}.

(** The object behind [self], and the context object it points to. *)
Definition this (self : ref) : M OrphiqAdapter :=
  gets (fun w => adapter_objs w !!! self).

Definition self_context (self : ref) : M ServiceContext :=
  gets (fun w => context_objs (session w) !!! context (adapter_objs w !!! self)).

(** [await self.websocket_send(msg)]: the closure of [_get_adapter]
    fetches the client's connection and sends on it if there is one. *)
Definition call_websocket_send (f : sender) (msg : value) : M unit :=
  match f with
  | send_to client_uid =>
      let* websocket :=
        gets (fun w => client_connections (session w) !! client_uid) in
      match websocket with
      | Some ws => in_session (send_text ws msg)
      | None => ret tt
      end
  end.

(** The text that [generate_text] yields for one agent output, if any. *)
Definition chunk_of_output (output : agent_output) : option string :=
  match output with
  | SentenceOutput text => Some text
  | AudioOutput transcript => Some transcript
  | UnknownOutput => None
  end.

(** [generate_text]: an async generator.  Calling it returns the generator;
    whatever fails inside is logged and raised again by the generator. *)
Definition generate_text (self : ref) (prompt : value)
    (context : value) : M (gen string) :=
  let* ctx := self_context self in
  let* agent_output :=
    try_except
      (let* batch_input :=
         of_outcome
           (create_batch_input prompt (human_name (character_config ctx))) in
       in_session (in_ext (chat (agent_engine ctx) batch_input)))
      (fun e => ret (gen_raise e)) in
  ret (gen_try_except
         (Gen (omap chunk_of_output (items agent_output)) (finish agent_output))
         (fun e => gen_raise e)).

Definition trigger_expression (self : ref) (expression_id : value)
    (duration : value) (priority : value) : M value :=
  try_except
    (let* actions := of_outcome (Actions_to_dict [expression_id]) in
     let* ctx := self_context self in
     let payload :=
       VDict [("type", VStr "audio");
              ("audio", VNone);
              ("volumes", VList []);
              ("slice_length", VInt 20);
              ("display_text",
                VDict [("text", VStr ("Expression " +:+ py_str expression_id));
                       ("name", VStr (character_name (character_config ctx)));
                       ("avatar", VStr (avatar (character_config ctx)))]);
              ("actions", actions);
              ("forwarded", VBool false)] in
     let* obj := this self in
     call_websocket_send (websocket_send obj) payload >>
     modify (set_adapter_objs
               (fun h => <[self := set__current_expression expression_id
                                     (h !!! self)]> h)) >>
     ret (VDict [("status", VStr "success");
                 ("expression_id", expression_id);
                 ("duration", duration);
                 ("priority", priority)]))
    (fun e =>
       logger_error "Error triggering expression" >>
       ret (VDict [("status", VStr "error"); ("error", VStr (exn_str e))])).

Definition trigger_motion (self : ref) (motion_group : value)
    (motion_index : value) (loop : value) (priority : value) : M value :=
  try_except
    (let payload :=
       VDict [("type", VStr "motion-command");
              ("motion_group", motion_group);
              ("motion_index", motion_index);
              ("loop", loop);
              ("priority", priority)] in
     let* obj := this self in
     call_websocket_send (websocket_send obj) payload >>
     modify (set_adapter_objs
               (fun h => <[self := set__current_motion
                                     (VDict [("group", motion_group);
                                             ("index", motion_index);
                                             ("loop", loop)])
                                     (h !!! self)]> h)) >>
     ret (VDict [("status", VStr "success");
                 ("motion_group", motion_group);
                 ("motion_index", motion_index);
                 ("loop", loop);
                 ("priority", priority)]))
    (fun e =>
       logger_error "Error triggering motion" >>
       ret (VDict [("status", VStr "error"); ("error", VStr (exn_str e))])).

Definition get_character_state (self : ref) : M value :=
  let* ctx := self_context self in
  let* obj := this self in
  ret (VDict [("character_name", VStr (character_name (character_config ctx)));
              ("model_name", VStr (live2d_model_name (live2d_model ctx)));
              ("current_expression", _current_expression obj);
              ("current_motion", _current_motion obj);
              ("config_uid", VStr (conf_uid (character_config ctx)))]).

End Methods.
End OrphiqAdapter.

(** ** chat_group.py: the two readers that the handler calls *)

(** Modelled from the spec: [ChatGroupManager.get_client_group] is not among
    the sources.  The reverse map sends a client to its group id, the empty
    string meaning no group; a group is found by its id. *)
Definition get_client_group (cgm : ChatGroupManager) (client_uid : string)
    : option Group :=
  match client_group_map cgm !! client_uid with
  | Some gid => if String.eqb gid "" then None else groups cgm !! gid
  | None => None
  end.

(** Modelled from the spec: [ChatGroupManager.get_group_members] is not among
    the sources.  The member ids of the client's group, none without a
    group. *)
Definition get_group_members (cgm : ChatGroupManager) (client_uid : string)
    : list string :=
  match get_client_group cgm client_uid with
  | Some g => elements (members g)
  | None => []
  end.

Definition set_client_group_map (f : gmap string string -> gmap string string)
    (cgm : ChatGroupManager) : ChatGroupManager :=
  {| client_group_map := f (client_group_map cgm); groups := groups cgm |}.

(** Modelled from the spec: [ServiceContext.load_cache] is not among the
    sources.  It stores its keyword arguments in the new context; the copies
    that [_init_service_context] passes are deep copies, which values are. *)
Definition load_cache (new_context : ServiceContext) (cfg : value)
    (sys : SystemConfig) (chr : CharacterConfig) (l2d : Live2dModel)
    (asr tts vad agent translate : engine) : ServiceContext :=
  {| config := cfg; system_config := sys; character_config := chr;
     live2d_model := l2d; asr_engine := asr; tts_engine := tts;
     vad_engine := vad; agent_engine := agent; translate_engine := translate;
     history_uid := history_uid new_context |}.

(** ** websocket_handler.py *)

Module WebSocketHandler.

(** The methods that [_init_message_handlers] registers. *)
Inductive handler : Type :=
| h_group_operation
| h_group_info
| h_history_list_request
| h_fetch_history
| h_create_history
| h_delete_history
| h_interrupt
| h_audio_data
| h_conversation_trigger
| h_raw_audio_data
| h_fetch_configs
| h_config_switch
| h_fetch_backgrounds
| h_audio_play_start
| h_expression_command
| h_motion_command
| h_text_generation_request
| h_set_backend_mode
| h_get_backend_mode.

Definition _init_message_handlers : list (string * handler) :=
  [ ("add-client-to-group", h_group_operation);
    ("remove-client-from-group", h_group_operation);
    ("request-group-info", h_group_info);
    ("fetch-history-list", h_history_list_request);
    ("fetch-and-set-history", h_fetch_history);
    ("create-new-history", h_create_history);
    ("delete-history", h_delete_history);
    ("interrupt-signal", h_interrupt);
    ("mic-audio-data", h_audio_data);
    ("mic-audio-end", h_conversation_trigger);
    ("raw-audio-data", h_raw_audio_data);
    ("text-input", h_conversation_trigger);
    ("ai-speak-signal", h_conversation_trigger);
    ("fetch-configs", h_fetch_configs);
    ("switch-config", h_config_switch);
    ("fetch-backgrounds", h_fetch_backgrounds);
    ("audio-play-start", h_audio_play_start);
    ("expression-command", h_expression_command);
    ("motion-command", h_motion_command);
    ("text-generation-request", h_text_generation_request);
    ("set-backend-mode", h_set_backend_mode);
    ("get-backend-mode", h_get_backend_mode) ].

(** [self._message_handlers.get(msg_type)]; only string keys are present. *)
Fixpoint handlers_lookup (k : string) (table : list (string * handler))
    : option handler :=
  match table with
  | [] => None
  | (k', h) :: table' =>
      if String.eqb k k' then Some h else handlers_lookup k table'
  end.

Definition _message_handlers_get (msg_type : value) : option handler :=
  match msg_type with
  | VStr k => handlers_lookup k _init_message_handlers
  | _ => None
  end.

(** The frames that the handler itself builds. *)
Definition error_envelope (message : string) : value :=
  VDict [("type", VStr "error"); ("message", VStr message)].

Definition control_envelope (text : string) : value :=
  VDict [("type", VStr "control"); ("text", VStr text)].

Definition group_update_envelope (group_members : list string) (is_owner : bool)
    : value :=
  VDict [("type", VStr "group-update");
         ("members", VList (map VStr group_members));
         ("is_owner", VBool is_owner)].

Definition text_generation_chunk (text_chunk : string) : value :=
  VDict [("type", VStr "text-generation-chunk");
         ("text", VStr text_chunk);
         ("is_complete", VBool false)].

Definition text_generation_response (full_text : string) : value :=
  VDict [("type", VStr "text-generation-response");
         ("text", VStr full_text);
         ("is_complete", VBool true)].

Definition backend_mode_set_envelope (mode : value) : value :=
  VDict [("type", VStr "backend-mode-set"); ("mode", mode)].

Definition backend_mode_envelope (mode : value) : value :=
  VDict [("type", VStr "backend-mode"); ("mode", mode)].

(** [msg["role"] != "system"] over the stored messages; a message without
    a role raises [KeyError]. *)
Fixpoint without_system (msgs : list (list (string * value)))
    : outcome (list value) :=
  match msgs with
  | [] => Ok []
  | msg :: msgs' =>
      match dict_get "role" msg with
      | None => Raise (key_error "role")
      | Some role =>
          match without_system msgs' with
          | Raise e => Raise e
          | Ok rest => Ok (if eq_str role "system" then rest else VDict msg :: rest)
          end
      end
  end.

Section Methods.

Context {sample ExtState : Type} {E : Externals sample ExtState}.

Abbreviation M := (ST (World sample ExtState)).
Abbreviation S := (ST (Session sample ExtState)).

(** [self.client_contexts[client_uid]], and the object it names. *)
Definition client_context (client_uid : string) : M ref :=
  in_session (subscript client_contexts client_uid).

Definition context_obj (c : ref) : M ServiceContext :=
  gets (fun w => context_objs (session w) !!! c).

Definition _init_service_context : M ref :=
  let* dflt := gets default_context_cache in
  let session_service_context :=
    load_cache ServiceContext_new (config dflt) (system_config dflt)
      (character_config dflt) (live2d_model dflt) (asr_engine dflt)
      (tts_engine dflt) (vad_engine dflt) (agent_engine dflt)
      (translate_engine dflt) in
  let* r := gets (fun w => next_context (session w)) in
  in_session
    (modify (fun s =>
       set_next_context (Datatypes.S r)
         (set_context_objs (insert r session_service_context) s))) >>
  ret r.

Definition send_group_update (websocket : WebSocket) (client_uid : string)
    : S unit :=
  let* cgm := gets chat_group_manager in
  match get_client_group cgm client_uid with
  | Some group =>
      let current_members := get_group_members cgm client_uid in
      send_text websocket
        (group_update_envelope current_members
           (String.eqb (owner_uid group) client_uid))
  | None => send_text websocket (group_update_envelope [] false)
  end.

Definition broadcast_to_group (group_members : list string) (message : value)
    (exclude_uid : option string) : S unit :=
  chat_group_broadcast_to_group group_members message exclude_uid.

Definition _store_client_data (websocket : WebSocket) (client_uid : string)
    (session_service_context : ref) : M unit :=
  in_session
    (modify (set_client_connections (insert client_uid websocket)) >>
     modify (set_client_contexts (insert client_uid session_service_context)) >>
     modify (set_received_data_buffers (insert client_uid [])) >>
     modify (set_chat_group_manager
               (set_client_group_map (insert client_uid ""))) >>
     send_group_update websocket client_uid).

Definition _send_initial_messages (websocket : WebSocket) (client_uid : string)
    (session_service_context : ref) : M unit :=
  let* ctx := context_obj session_service_context in
  in_session
    (send_text websocket
       (VDict [("type", VStr "full-text");
               ("text", VStr "Connection established")]) >>
     send_text websocket
       (VDict [("type", VStr "set-model-and-conf");
               ("model_info", model_info (live2d_model ctx));
               ("conf_name", VStr (conf_name (character_config ctx)));
               ("conf_uid", VStr (conf_uid (character_config ctx)));
               ("client_uid", VStr client_uid)]) >>
     send_group_update websocket client_uid >>
     send_text websocket (control_envelope "start-mic")).

(** The [except] branch calls [self._cleanup_failed_connection], a method
    the class does not define: the attribute lookup raises. *)
Definition handle_new_connection (websocket : WebSocket) (client_uid : string)
    : M unit :=
  try_except
    (let* session_service_context := _init_service_context in
     _store_client_data websocket client_uid session_service_context >>
     _send_initial_messages websocket client_uid session_service_context >>
     logger_info "Connection established")
    (fun e =>
       logger_error "Failed to initialize connection" >>
       raise (Exn AttributeError
                "'WebSocketHandler' object has no attribute '_cleanup_failed_connection'")).

Definition _handle_group_operation (websocket : WebSocket)
    (client_uid : string) (data : list (string * value)) : M unit :=
  let operation := dict_get "type" data in
  let target_uid :=
    dict_get (if opt_eq_str operation "add-client-to-group"
              then "invitee_uid" else "target_uid") data in
  in_session
    (handle_group_operation operation client_uid target_uid send_group_update).

Definition handle_disconnect (client_uid : string) : M unit :=
  let* cgm := gets (fun w => chat_group_manager (session w)) in
  match get_client_group cgm client_uid with
  | Some group =>
      in_session
        (handle_group_interrupt (group_id group) (VStr "") broadcast_to_group)
  | None => ret tt
  end >>
  in_session (handle_client_disconnect client_uid send_group_update) >>
  in_session
    (modify (set_client_connections (delete client_uid)) >>
     modify (set_client_contexts (delete client_uid)) >>
     modify (set_received_data_buffers (delete client_uid))) >>
  modify (set_client_adapters (delete client_uid)) >>
  modify (set_backend_modes (delete client_uid)) >>
  let* tasks := gets (fun w => current_conversation_tasks (session w)) in
  match tasks !! client_uid with
  | Some task =>
      match task with
      | Some t =>
          let* finished := gets (fun w => task_done t (ext (session w))) in
          if finished then ret tt else in_session (in_ext (task_cancel t))
      | None => ret tt
      end >>
      in_session (modify (set_current_conversation_tasks (delete client_uid)))
  | None => ret tt
  end >>
  logger_info "Client disconnected" >>
  in_session (in_ext (message_handler_cleanup_client client_uid)).

Definition _handle_interrupt (websocket : WebSocket) (client_uid : string)
    (data : list (string * value)) : M unit :=
  let heard_response := dict_get_default "text" (VStr "") data in
  let* context := client_context client_uid in
  let* cgm := gets (fun w => chat_group_manager (session w)) in
  let group := get_client_group cgm client_uid in
  match group with
  | Some g =>
      if (1 <? size (members g))%nat
      then in_session
             (handle_group_interrupt (group_id g) heard_response
                broadcast_to_group)
      else in_session
             (handle_individual_interrupt client_uid context heard_response)
  | None =>
      in_session
        (handle_individual_interrupt client_uid context heard_response)
  end.

Definition _handle_history_list_request (websocket : WebSocket)
    (client_uid : string) (data : list (string * value)) : M unit :=
  let* context := client_context client_uid in
  let* ctx := context_obj context in
  let* histories :=
    in_session (in_ext (get_history_list (conf_uid (character_config ctx)))) in
  in_session
    (send_text websocket
       (VDict [("type", VStr "history-list"); ("histories", histories)])).

Definition _handle_fetch_history (websocket : WebSocket)
    (client_uid : string) (data : list (string * value)) : M unit :=
  match dict_get "history_uid" data with
  | Some history_uid =>
      if truthy history_uid then
        let* context := client_context client_uid in
        in_session
          (modify (set_context_objs
             (fun h => <[context := set_history_uid history_uid (h !!! context)]> h))) >>
        let* ctx := context_obj context in
        in_session
          (in_ext (set_memory_from_history (agent_engine ctx)
                     (conf_uid (character_config ctx)) history_uid)) >>
        let* stored :=
          in_session
            (in_ext (get_history (conf_uid (character_config ctx)) history_uid)) in
        let* messages := of_outcome (without_system stored) in
        in_session
          (send_text websocket
             (VDict [("type", VStr "history-data");
                     ("messages", VList messages)]))
      else ret tt
  | None => ret tt
  end.

Definition _handle_create_history (websocket : WebSocket)
    (client_uid : string) (data : list (string * value)) : M unit :=
  let* context := client_context client_uid in
  let* ctx := context_obj context in
  let* history_uid :=
    in_session (in_ext (create_new_history (conf_uid (character_config ctx)))) in
  if truthy history_uid then
    in_session
      (modify (set_context_objs
         (fun h => <[context := set_history_uid history_uid (h !!! context)]> h))) >>
    let* ctx := context_obj context in
    in_session
      (in_ext (set_memory_from_history (agent_engine ctx)
                 (conf_uid (character_config ctx)) history_uid)) >>
    in_session
      (send_text websocket
         (VDict [("type", VStr "new-history-created");
                 ("history_uid", history_uid)]))
  else ret tt.

Definition _handle_delete_history (websocket : WebSocket)
    (client_uid : string) (data : list (string * value)) : M unit :=
  match dict_get "history_uid" data with
  | Some history_uid =>
      if truthy history_uid then
        let* context := client_context client_uid in
        let* ctx := context_obj context in
        let* success :=
          in_session
            (in_ext (delete_history (conf_uid (character_config ctx)) history_uid)) in
        in_session
          (send_text websocket
             (VDict [("type", VStr "history-deleted");
                     ("success", success);
                     ("history_uid", history_uid)])) >>
        let* ctx := context_obj context in
        if py_eq history_uid (context_history_uid ctx)
        then in_session
               (modify (set_context_objs
                  (fun h => <[context := set_history_uid VNone (h !!! context)]> h)))
        else ret tt
      else ret tt
  | None => ret tt
  end.

Definition _handle_audio_data (websocket : WebSocket) (client_uid : string)
    (data : list (string * value)) : M unit :=
  logger_info "Received audio data" >>
  let* _ := of_outcome (py_len (dict_get_default "audio" (VList []) data)) in
  let* _ := in_session (subscript received_data_buffers client_uid) in
  let audio_data := dict_get_default "audio" (VList []) data in
  if truthy audio_data then
    let* buffer := in_session (subscript received_data_buffers client_uid) in
    let* samples := of_outcome (np_array_float32 audio_data) in
    in_session
      (modify (set_received_data_buffers (insert client_uid (buffer ++ samples)))) >>
    let* _ := in_session (subscript received_data_buffers client_uid) in
    ret tt
  else ret tt.

(** What the loop of [_handle_raw_audio_data] does with one VAD event. *)
Definition on_vad_event (websocket : WebSocket) (client_uid : string)
    (audio_bytes : list byte) : M unit :=
  if decide (audio_bytes = PAUSE) then
    logger_info "VAD detected pause" >>
    in_session (send_text websocket (control_envelope "interrupt"))
  else if decide (audio_bytes = RESUME) then
    logger_info "VAD detected resume"
  else if (1024 <? length audio_bytes)%nat then
    logger_info "VAD detected speech activity" >>
    let* buffer := in_session (subscript received_data_buffers client_uid) in
    let* pcm :=
      match frombuffer_int16 audio_bytes with
      | Some l => ret l
      | None =>
          raise (Exn ValueError
                   "buffer size must be a multiple of element size")
      end in
    in_session
      (modify (set_received_data_buffers
                 (insert client_uid (buffer ++ map astype_float32 pcm)))) >>
    let* _ := in_session (subscript received_data_buffers client_uid) in
    in_session (send_text websocket (control_envelope "mic-audio-end"))
  else ret tt.

Definition _handle_raw_audio_data (websocket : WebSocket)
    (client_uid : string) (data : list (string * value)) : M unit :=
  let* context := client_context client_uid in
  logger_info "Processing raw audio data through VAD" >>
  let chunk := dict_get_default "audio" (VList []) data in
  if truthy chunk then
    let* _ := of_outcome (py_len chunk) in
    let* ctx := context_obj context in
    let* events := in_session (in_ext (detect_speech (vad_engine ctx) chunk)) in
    for_gen events (on_vad_event websocket client_uid)
  else ret tt.

Definition _handle_conversation_trigger (websocket : WebSocket)
    (client_uid : string) (data : list (string * value)) : M unit :=
  let* context := client_context client_uid in
  in_session
    (handle_conversation_trigger (dict_get_default "type" (VStr "") data)
       data client_uid context websocket broadcast_to_group).

Definition _handle_fetch_configs (websocket : WebSocket)
    (client_uid : string) (data : list (string * value)) : M unit :=
  let* context := client_context client_uid in
  let* ctx := context_obj context in
  let* config_files :=
    in_session
      (in_ext (scan_config_alts_directory (config_alts_dir (system_config ctx)))) in
  in_session
    (send_text websocket
       (VDict [("type", VStr "config-files"); ("configs", config_files)])).

Definition _handle_config_switch (websocket : WebSocket)
    (client_uid : string) (data : list (string * value)) : M unit :=
  match dict_get "file" data with
  | Some config_file_name =>
      if truthy config_file_name then
        let* context := client_context client_uid in
        in_session
          (ServiceContext_handle_config_switch context websocket
             config_file_name)
      else ret tt
  | None => ret tt
  end.

Definition _handle_fetch_backgrounds (websocket : WebSocket)
    (client_uid : string) (data : list (string * value)) : M unit :=
  let* bg_files := in_session (in_ext scan_bg_directory) in
  in_session
    (send_text websocket
       (VDict [("type", VStr "background-files"); ("files", bg_files)])).

Definition _handle_audio_play_start (websocket : WebSocket)
    (client_uid : string) (data : list (string * value)) : M unit :=
  let* cgm := gets (fun w => chat_group_manager (session w)) in
  let group_members := get_group_members cgm client_uid in
  if (1 <? length group_members)%nat then
    match dict_get "display_text" data with
    | Some display_text =>
        if truthy display_text then
          let* silent_payload := of_outcome (prepare_audio_payload display_text) in
          in_session
            (broadcast_to_group group_members silent_payload (Some client_uid))
        else ret tt
    | None => ret tt
    end
  else ret tt.

Definition _handle_group_info (websocket : WebSocket)
    (client_uid : string) (data : list (string * value)) : M unit :=
  in_session (send_group_update websocket client_uid).

(** [OrphiqAdapter(...)]: a new object in the store; its reference is the
    next unused one. *)
Definition new_OrphiqAdapter (service_context : ref) (f : sender) : M ref :=
  let* r := gets next_adapter in
  modify (fun w =>
    set_next_adapter (Datatypes.S r)
      (set_adapter_objs (insert r (OrphiqAdapter.__init__ service_context f)) w)) >>
  ret r.

Definition _get_adapter (client_uid : string) : M ref :=
  let* adapters := gets client_adapters in
  match adapters !! client_uid with
  | Some adapter => ret adapter
  | None =>
      let* context :=
        gets (fun w => client_contexts (session w) !! client_uid) in
      match context with
      | None =>
          raise (Exn ValueError ("No context found for client " +:+ client_uid))
      | Some context =>
          let* modes := gets backend_modes in
          let mode := default (VStr "orphiq") (modes !! client_uid) in
          if eq_str mode "orphiq" then
            let websocket_send := send_to client_uid in
            let* adapter := new_OrphiqAdapter context websocket_send in
            modify (set_client_adapters (insert client_uid adapter)) >>
            subscript client_adapters client_uid
          else
            raise (Exn ValueError
                     ("Backend mode '" +:+ py_str mode +:+ "' not yet implemented"))
      end
  end.

Definition _handle_expression_command (websocket : WebSocket)
    (client_uid : string) (data : list (string * value)) : M unit :=
  try_except
    (let expression_id := dict_get_default "expression_id" VNone data in
     if is_None expression_id then
       in_session
         (send_text websocket (error_envelope "expression_id is required"))
     else
         let duration := dict_get_default "duration" (VInt 0) data in
         let priority := dict_get_default "priority" (VInt 0) data in
         let* adapter := _get_adapter client_uid in
         let* result :=
           OrphiqAdapter.trigger_expression adapter expression_id duration
             priority in
         in_session
           (send_text websocket
              (VDict [("type", VStr "expression-ack");
                      ("expression_id", expression_id);
                      ("result", result)])))
    (fun e =>
       logger_error "Error handling expression command" >>
       in_session (send_text websocket (error_envelope (exn_str e)))).

Definition _handle_motion_command (websocket : WebSocket)
    (client_uid : string) (data : list (string * value)) : M unit :=
  try_except
    (let motion_group := dict_get_default "motion_group" VNone data in
     let motion_index := dict_get_default "motion_index" VNone data in
     if is_None motion_group || is_None motion_index then
       in_session
         (send_text websocket
            (error_envelope "motion_group and motion_index are required"))
     else
         let loop := dict_get_default "loop" (VBool false) data in
         let priority := dict_get_default "priority" (VInt 0) data in
         let* adapter := _get_adapter client_uid in
         let* result :=
           OrphiqAdapter.trigger_motion adapter motion_group motion_index
             loop priority in
         in_session
           (send_text websocket
              (VDict [("type", VStr "motion-ack");
                      ("motion_group", motion_group);
                      ("motion_index", motion_index);
                      ("result", result)])))
    (fun e =>
       logger_error "Error handling motion command" >>
       in_session (send_text websocket (error_envelope (exn_str e)))).

Definition _handle_text_generation_request (websocket : WebSocket)
    (client_uid : string) (data : list (string * value)) : M unit :=
  try_except
    (let prompt := dict_get_default "prompt" (VStr "") data in
     if negb (truthy prompt) then
       in_session (send_text websocket (error_envelope "prompt is required"))
     else
       let context := dict_get_default "context" (VDict []) data in
       let* adapter := _get_adapter client_uid in
       let* chunks := OrphiqAdapter.generate_text adapter prompt context in
       let* full_text :=
         fold_gen chunks ""
           (fun full_text text_chunk =>
              let full_text := full_text +:+ text_chunk in
              in_session (send_text websocket (text_generation_chunk text_chunk)) >>
              ret full_text) in
       in_session (send_text websocket (text_generation_response full_text)))
    (fun e =>
       logger_error "Error handling text generation request" >>
       in_session (send_text websocket (error_envelope (exn_str e)))).

Definition _handle_set_backend_mode (websocket : WebSocket)
    (client_uid : string) (data : list (string * value)) : M unit :=
  try_except
    (let mode := dict_get_default "mode" (VStr "orphiq") data in
     if negb (in_strings mode ["orphiq"; "external-api"; "autonomous"]) then
       in_session
         (send_text websocket
            (error_envelope
               ("Invalid backend mode: " +:+ py_str mode +:+
                ". Must be one of: orphiq, external-api, autonomous")))
     else
       modify (set_client_adapters (delete client_uid)) >>
       modify (set_backend_modes (insert client_uid mode)) >>
       let* _ := _get_adapter client_uid in
       in_session (send_text websocket (backend_mode_set_envelope mode)))
    (fun e =>
       logger_error "Error setting backend mode" >>
       in_session (send_text websocket (error_envelope (exn_str e)))).

Definition _handle_get_backend_mode (websocket : WebSocket)
    (client_uid : string) (data : list (string * value)) : M unit :=
  try_except
    (let* modes := gets backend_modes in
     let mode := default (VStr "orphiq") (modes !! client_uid) in
     in_session (send_text websocket (backend_mode_envelope mode)))
    (fun e =>
       logger_error "Error getting backend mode" >>
       in_session (send_text websocket (error_envelope (exn_str e)))).

(** [await handler(websocket, client_uid, data)] for a registered method. *)
Definition call_handler (h : handler)
    : WebSocket -> string -> list (string * value) -> M unit :=
  match h with
  | h_group_operation => _handle_group_operation
  | h_group_info => _handle_group_info
  | h_history_list_request => _handle_history_list_request
  | h_fetch_history => _handle_fetch_history
  | h_create_history => _handle_create_history
  | h_delete_history => _handle_delete_history
  | h_interrupt => _handle_interrupt
  | h_audio_data => _handle_audio_data
  | h_conversation_trigger => _handle_conversation_trigger
  | h_raw_audio_data => _handle_raw_audio_data
  | h_fetch_configs => _handle_fetch_configs
  | h_config_switch => _handle_config_switch
  | h_fetch_backgrounds => _handle_fetch_backgrounds
  | h_audio_play_start => _handle_audio_play_start
  | h_expression_command => _handle_expression_command
  | h_motion_command => _handle_motion_command
  | h_text_generation_request => _handle_text_generation_request
  | h_set_backend_mode => _handle_set_backend_mode
  | h_get_backend_mode => _handle_get_backend_mode
  end.

(** A frame that is not a JSON object has no [get]; a list or dict as type
    tag cannot be looked up in the handler table. *)
Definition _route_message (websocket : WebSocket) (client_uid : string)
    (data : value) : M unit :=
  match data with
  | VDict d =>
      match dict_get "type" d with
      | None => logger_warning "Message received without type"
      | Some msg_type =>
          if negb (truthy msg_type) then
            logger_warning "Message received without type"
          else if negb (hashable msg_type) then
            raise (Exn TypeError "unhashable type")
          else
            match _message_handlers_get msg_type with
            | Some h => call_handler h websocket client_uid d
            | None =>
                if negb (eq_str msg_type "frontend-playback-complete")
                then logger_warning "Unknown message type"
                else ret tt
            end
      end
  | _ => raise (Exn AttributeError "object has no attribute 'get'")
  end.

(** One turn of the [while True] loop, given what [receive_json] did:
    returning means [continue], raising leaves the loop. *)
Definition receive_iteration (websocket : WebSocket) (client_uid : string)
    (received : outcome value) : M unit :=
  try_except
    (let* data := of_outcome received in
     in_session (in_ext (message_handler_handle_message client_uid data)) >>
     _route_message websocket client_uid data)
    (fun e =>
       if is_WebSocketDisconnect e then raise e
       else if is_JSONDecodeError e then logger_error "Invalid JSON received"
       else
         logger_error "Error processing message" >>
         in_session (send_text websocket (error_envelope (exn_str e)))).

(** The receive loop over the frames that arrive, in order.  It returns
    when it waits for a frame beyond [inbox]; it raises when the loop is
    left, and the connection with it. *)
Definition handle_websocket_communication (websocket : WebSocket)
    (client_uid : string) (inbox : list (outcome value)) : M unit :=
  try_except
    (for_each inbox (receive_iteration websocket client_uid))
    (fun e => logger_error "Fatal error in WebSocket communication" >> raise e).

(** *** What can happen to the process *)

Inductive event : Type :=
| Connect (websocket : WebSocket) (client_uid : string)
| Receive (websocket : WebSocket) (client_uid : string)
    (inbox : list (outcome value))
| Disconnect (client_uid : string)
(** a step of a conversation task or of any other collaborator *)
| Background (step : S unit).

Definition run_event (ev : event) (w : World sample ExtState)
    : World sample ExtState :=
  match ev with
  | Connect websocket client_uid =>
      state_of (handle_new_connection websocket client_uid w)
  | Receive websocket client_uid inbox =>
      state_of (handle_websocket_communication websocket client_uid inbox w)
  | Disconnect client_uid => state_of (handle_disconnect client_uid w)
  | Background step => state_of (in_session step w)
  end.

Definition run (events : list event) (w : World sample ExtState)
    : World sample ExtState :=
  fold_left (fun w ev => run_event ev w) events w.

End Methods.
End WebSocketHandler.

(** ** Vocabulary of the properties *)

(** A computation keeps a predicate on the state, whether it returns or
    raises. *)
Definition preserves {St A : Type} (P : St -> Prop) (m : ST St A) : Prop :=
  forall s, P s -> P (state_of (m s)).

(** The result records of the trigger operations. *)
Definition error_record (e : exn) : value :=
  VDict [("status", VStr "error"); ("error", VStr (exn_str e))].

Definition expression_success (expression_id duration priority : value) : value :=
  VDict [("status", VStr "success");
         ("expression_id", expression_id);
         ("duration", duration);
         ("priority", priority)].

Definition motion_success (motion_group motion_index loop priority : value)
    : value :=
  VDict [("status", VStr "success");
         ("motion_group", motion_group);
         ("motion_index", motion_index);
         ("loop", loop);
         ("priority", priority)].

(** The three kinds of voice-activity events, and the segmentation
    threshold above which a speech segment is buffered. *)
Inductive vad_event : Type :=
| Pause
| Resume
| Segment (audio : list byte).

Definition classify (audio_bytes : list byte) : vad_event :=
  if decide (audio_bytes = PAUSE) then Pause
  else if decide (audio_bytes = RESUME) then Resume
  else Segment audio_bytes.

Definition segmentation_threshold : nat := 1024.

(** What one event is to put on the wire and into the buffer. *)
Definition frames_of_event (websocket : WebSocket) (audio_bytes : list byte)
    : list (WebSocket * value) :=
  match classify audio_bytes with
  | Pause => [(websocket, WebSocketHandler.control_envelope "interrupt")]
  | Resume => []
  | Segment audio =>
      if (segmentation_threshold <? length audio)%nat
      then [(websocket, WebSocketHandler.control_envelope "mic-audio-end")]
      else []
  end.

Definition samples_of_event (audio_bytes : list byte) : list Z :=
  match classify audio_bytes with
  | Segment audio =>
      if (segmentation_threshold <? length audio)%nat
      then default [] (frombuffer_int16 audio)
      else []
  | _ => []
  end.

(** A segment above the threshold is whole 16-bit samples. *)
Definition whole_samples (audio_bytes : list byte) : bool :=
  match classify audio_bytes with
  | Segment audio =>
      negb (segmentation_threshold <? length audio)%nat || Nat.even (length audio)
  | _ => true
  end.

Section Vocabulary.

Context {sample ExtState : Type} {E : Externals sample ExtState}.
Implicit Types (w : World sample ExtState) (s : Session sample ExtState).

(** Predicates on the process that speak only about which adapters the
    handler holds and which references are in use: they survive whatever
    happens to the session part, to the adapter objects and to the recorded
    modes, the removal of an entry, and the storing of a new adapter. *)
Record adapter_invariant (P : World sample ExtState -> Prop) : Prop := {
  inv_session : forall w s, P w -> P (set_session s w);
  inv_objs : forall w f, P w -> P (set_adapter_objs f w);
  inv_modes : forall w f, P w -> P (set_backend_modes f w);
  inv_delete : forall w uid, P w -> P (set_client_adapters (delete uid) w);
  inv_create : forall w uid,
    P w ->
    P (set_client_adapters (insert uid (next_adapter w))
         (set_next_adapter (Datatypes.S (next_adapter w)) w))
}.

(** References are handed out in increasing order, so an adapter created
    before the moment [t] has a reference below [t].  [fresh_since t uid]:
    the adapter held for [uid], if any, was created at or after [t]. *)
Definition fresh_since (t : ref) (client_uid : string) w : Prop :=
  (t <= next_adapter w)%nat /\
  forall r, client_adapters w !! client_uid = Some r -> (t <= r)%nat.

(** Every adapter the handler holds has been created. *)
Definition adapters_allocated w : Prop :=
  map_Forall (fun _ r => (r < next_adapter w)%nat) (client_adapters w).

(** The mode of a set-backend-mode message, and the modes the handler
    lets through. *)
Definition requested_mode (data : list (string * value)) : value :=
  dict_get_default "mode" (VStr "orphiq") data.

Definition accepted_mode (data : list (string * value)) : bool :=
  in_strings (requested_mode data) ["orphiq"; "external-api"; "autonomous"].

(** The state in which [_handle_set_backend_mode] asks for the new
    adapter: the old entry removed, the requested mode recorded. *)
Definition mode_recorded (client_uid : string) (mode : value) w
    : World sample ExtState :=
  set_backend_modes (insert client_uid mode)
    (set_client_adapters (delete client_uid) w).

(** The process after [_get_adapter] stored a new adapter for the client:
    the object is in the store under the next unused reference. *)
Definition adapter_created (client_uid : string) (service_context : ref) w
    : World sample ExtState :=
  set_client_adapters (insert client_uid (next_adapter w))
    (set_next_adapter (Datatypes.S (next_adapter w))
       (set_adapter_objs
          (insert (next_adapter w)
             (OrphiqAdapter.__init__ service_context
                (send_to client_uid))) w)).

(** The mode that a get-backend-mode request reports. *)
Definition current_mode (client_uid : string) w : value :=
  default (VStr "orphiq") (backend_modes w !! client_uid).

(** The process with one more frame delivered. *)
Definition delivered (websocket : WebSocket) (msg : value) w
    : World sample ExtState :=
  set_session (set_sent (fun l => l ++ [(websocket, msg)]) (session w)) w.

(** What a session consists of for one client. *)
Definition session_state (client_uid : string) w
    : option value * option ref * option ServiceContext * option (list sample) :=
  (backend_modes w !! client_uid,
   client_adapters w !! client_uid,
   (fun c => context_objs (session w) !!! c) <$>
     client_contexts (session w) !! client_uid,
   received_data_buffers (session w) !! client_uid).

(** The effect of one voice-activity event on the session: a pause marker
    sends the interrupt signal; a segment above the threshold is appended
    to the client's buffer and then the end-of-utterance signal is sent; a
    resume marker and a short segment change nothing. *)
Definition event_effect (websocket : WebSocket) (client_uid : string)
    (audio_bytes : list byte) s : Session sample ExtState :=
  match classify audio_bytes with
  | Pause =>
      set_sent
        (fun l => l ++ [(websocket, WebSocketHandler.control_envelope "interrupt")])
        s
  | Resume => s
  | Segment audio =>
      if (segmentation_threshold <? length audio)%nat then
        set_sent
          (fun l =>
             l ++ [(websocket, WebSocketHandler.control_envelope "mic-audio-end")])
          (set_received_data_buffers
             (alter
                (fun buffer =>
                   buffer ++
                   map astype_float32 (default [] (frombuffer_int16 audio)))
                client_uid) s)
      else s
  end.



(** *** Statements of the specification that the code does not meet *)

(** "A mode outside {bridge, external-api, autonomous} causes an error
    envelope and no mode change; every mode inside that set is accepted:
    the adapter is replaced and the acknowledgement carrying that mode is
    sent." *)
Definition stated_set_backend_mode (websocket : WebSocket)
    (client_uid : string) (data : list (string * value)) w : Prop :=
  let mode := requested_mode data in
  let w' :=
    state_of
      (WebSocketHandler._handle_set_backend_mode websocket client_uid data w) in
  if in_strings mode ["bridge"; "external-api"; "autonomous"]
  then
    (exists adapter,
       client_adapters w' !! client_uid = Some adapter /\
       (next_adapter w <= adapter)%nat) /\
    sent (session w') =
      sent (session w) ++
      [(websocket, WebSocketHandler.backend_mode_set_envelope mode)]
  else
    (exists message,
       sent (session w') =
         sent (session w) ++
         [(websocket, WebSocketHandler.error_envelope message)]) /\
    backend_modes w' = backend_modes w.

(** "If adapter creation raises during set-backend-mode handling, an error
    envelope is sent to the originating client and the client's session
    state is the same after the handler returns as before." *)
Definition stated_adapter_error (websocket : WebSocket)
    (client_uid : string) (data : list (string * value)) w : Prop :=
  forall e,
    accepted_mode data = true ->
    outcome_of
      (WebSocketHandler._get_adapter client_uid
         (mode_recorded client_uid (requested_mode data) w)) = Raise e ->
    let w' :=
      state_of
        (WebSocketHandler._handle_set_backend_mode websocket client_uid data w) in
    (exists message,
       sent (session w') =
         sent (session w) ++
         [(websocket, WebSocketHandler.error_envelope message)]) /\
    session_state client_uid w' = session_state client_uid w.


End Vocabulary.

(** ** Test doubles *)

(** Collaborators in the manner of the mocks of [tests/test_adapters.py] and
    [tests/test_websocket_handlers.py]: the calls into the group and
    conversation modules are recorded, in order, in the private state; the
    voice-activity detector and the agent engine play a script; the rest
    does nothing. *)
Definition record_call (name : string) (args : list value)
    : ST (Session Z (list value)) unit :=
  in_ext
    (modify (fun calls =>
       calls ++ [VDict [("call", VStr name); ("args", VList args)]])).

Definition mock (vad_script : gen (list byte)) (agent_script : gen agent_output)
    : Externals Z (list value) :=
  {| str_container := fun _ => "[...]";
     eq_container := fun _ _ => false;
     astype_float32 := fun z => z;
     np_array_float32 := fun _ => Ok [];
     handle_group_operation := fun operation client_uid target_uid _ =>
       record_call "handle_group_operation"
         [default VNone operation; VStr client_uid; default VNone target_uid];
     handle_client_disconnect := fun client_uid _ =>
       record_call "handle_client_disconnect" [VStr client_uid];
     chat_group_broadcast_to_group := fun group_members message _ =>
       record_call "broadcast_to_group" [VList (map VStr group_members); message];
     handle_conversation_trigger := fun msg_type data client_uid _ _ _ =>
       record_call "handle_conversation_trigger"
         [msg_type; VDict data; VStr client_uid];
     handle_group_interrupt := fun group_id heard_response _ =>
       record_call "handle_group_interrupt" [VStr group_id; heard_response];
     handle_individual_interrupt := fun client_uid _ heard_response =>
       record_call "handle_individual_interrupt" [VStr client_uid; heard_response];
     message_handler_handle_message := fun _ _ => ret tt;
     message_handler_cleanup_client := fun _ => ret tt;
     get_history_list := fun _ => ret (VList []);
     get_history := fun _ _ => ret [];
     create_new_history := fun _ => ret (VStr "history-1");
     delete_history := fun _ _ => ret (VBool true);
     scan_config_alts_directory := fun _ => ret (VList []);
     scan_bg_directory := ret (VList []);
     prepare_audio_payload := fun display_text =>
       Ok (VDict [("type", VStr "audio"); ("display_text", display_text)]);
     ServiceContext_new := inhabitant;
     ServiceContext_handle_config_switch := fun _ _ _ => ret tt;
     set_memory_from_history := fun _ _ _ => ret tt;
     detect_speech := fun _ _ => ret vad_script;
     chat := fun _ _ => ret agent_script;
     create_batch_input := fun input_text _ => Ok input_text;
     Actions_to_dict := fun l => Ok (VDict [("expressions", VList l)]);
     task_done := fun _ _ => true;
     task_cancel := fun _ => ret tt |}.

Definition quiet : Externals Z (list value) := mock (Gen [] None) (Gen [] None).

(** The agent of [test_generate_text_multiple_chunks]. *)
Definition hello_world : gen agent_output :=
  Gen [SentenceOutput "Hello, "; SentenceOutput "world!"] None.

Definition talking : Externals Z (list value) := mock (Gen [] None) hello_world.


(** A detector that reports a pause, a resume, a segment of 513 samples and
    a segment of 4 samples. *)
Definition speech : list byte := repeat x01 1026.

Definition listening : Externals Z (list value) :=
  mock (Gen [PAUSE; RESUME; speech; [x01; x00; x02; x00; x03; x00; x04; x00]] None)
    (Gen [] None).

Definition test_context : ServiceContext :=
  {| config := VNone;
     system_config := {| config_alts_dir := "characters" |};
     character_config :=
       {| conf_name := "test"; conf_uid := "test-conf-uid";
          character_name := "TestCharacter"; human_name := "Human";
          avatar := "test.png" |};
     live2d_model := {| model_info := VNone; live2d_model_name := "test_model" |};
     asr_engine := 0%nat; tts_engine := 0%nat; vad_engine := 0%nat;
     agent_engine := 0%nat; translate_engine := 0%nat;
     history_uid := VNone |}.

(** A handler just built by [__init__], before any connection. *)
Definition new_handler : World Z (list value) :=
  {| session :=
       {| client_connections := ∅; client_contexts := ∅; context_objs := ∅;
          next_context := 0%nat;
          chat_group_manager := {| client_group_map := ∅; groups := ∅ |};
          current_conversation_tasks := ∅; received_data_buffers := ∅;
          sent := []; closed := ∅; ext := [] |};
     default_context_cache := test_context;
     client_adapters := ∅; backend_modes := ∅; adapter_objs := ∅;
     next_adapter := 0%nat |}.

Definition client_uid_1 : string := "test-client-123".

(** The handler after client [client_uid_1] connected on socket 1. *)
Definition one_client : World Z (list value) :=
  WebSocketHandler.run (E := quiet)
    [WebSocketHandler.Connect 1%nat client_uid_1] new_handler.

(** The same after the client used its adapter once. *)
Definition one_client_with_adapter : World Z (list value) :=
  WebSocketHandler.run (E := quiet)
    [WebSocketHandler.Receive 1%nat client_uid_1
       [Ok (VDict [("type", VStr "expression-command");
                   ("expression_id", VInt 1)])]]
    one_client.

(** The same when the client's socket has gone away. *)
Definition socket_gone : exn :=
  Exn RuntimeError "Cannot call send once a close message has been sent.".

Definition one_client_unreachable : World Z (list value) :=
  set_session
    (set_closed (insert 1%nat socket_gone) (session one_client_with_adapter))
    one_client_with_adapter.

(** The client in a group of two. *)
Definition group_of_two : Group :=
  {| group_id := "group-1"; owner_uid := client_uid_1;
     members := {[client_uid_1; "test-client-456"]} |}.

Definition one_client_in_group : World Z (list value) :=
  set_session
    (set_chat_group_manager
       (fun _ =>
          {| client_group_map :=
               {[client_uid_1 := "group-1"; "test-client-456" := "group-1"]};
             groups := {["group-1" := group_of_two]} |})
       (session one_client))
    one_client.

(** Messages. *)
Definition set_mode (mode : string) : list (string * value) :=
  [("type", VStr "set-backend-mode"); ("mode", VStr mode)].

Definition expression_command (expression_id : Z) : list (string * value) :=
  [("type", VStr "expression-command");
   ("expression_id", VInt expression_id);
   ("duration", VInt 0)].

Definition interrupt_signal : list (string * value) :=
  [("type", VStr "interrupt-signal"); ("text", VStr "ok")].

Definition raw_audio_data : list (string * value) :=
  [("type", VStr "raw-audio-data"); ("audio", VList [VInt 0; VInt 1])].


Definition foo_bar : list (string * value) := [("type", VStr "foo-bar")].

Import OrphiqAdapter WebSocketHandler.

(** * Properties *)

(** ** Laws of the coroutine monad *)

Section StateLaws.

Context {St A B : Type}.
Implicit Types (m : ST St A) (k : A -> ST St B) (h : exn -> ST St A).

Lemma bind_Ok m k s a s' : m s = (Ok a, s') -> bind m k s = k a s'.
Proof. unfold bind. intros ->. reflexivity. Qed.

Lemma bind_Raise m k s e s' :
  m s = (Raise e, s') -> bind m k s = (Raise e, s').
Proof. unfold bind. intros ->. reflexivity. Qed.

Lemma try_except_Ok m h s a s' :
  m s = (Ok a, s') -> try_except m h s = (Ok a, s').
Proof. unfold try_except. intros ->. reflexivity. Qed.

Lemma try_except_Raise m h s e s' :
  m s = (Raise e, s') -> try_except m h s = h e s'.
Proof. unfold try_except. intros ->. reflexivity. Qed.

End StateLaws.

Section WorldLaws.

Context {sample ExtState : Type}.
Implicit Types (w : World sample ExtState) (s : Session sample ExtState).

Lemma set_session_same w : set_session (session w) w = w.
Proof. destruct w. reflexivity. Qed.

Lemma set_ext_same s : set_ext (ext s) s = s.
Proof. destruct s. reflexivity. Qed.

Lemma in_session_Ok {A} (m : ST (Session sample ExtState) A) w a s :
  m (session w) = (Ok a, s) -> in_session m w = (Ok a, set_session s w).
Proof. unfold in_session, zoom. intros ->. reflexivity. Qed.

Lemma in_session_Raise {A} (m : ST (Session sample ExtState) A) w e s :
  m (session w) = (Raise e, s) -> in_session m w = (Raise e, set_session s w).
Proof. unfold in_session, zoom. intros ->. reflexivity. Qed.

Lemma send_text_open ws msg s :
  closed s !! ws = None ->
  send_text ws msg s = (Ok tt, set_sent (fun l => l ++ [(ws, msg)]) s).
Proof. unfold send_text. intros ->. reflexivity. Qed.

Lemma send_text_closed ws msg s e :
  closed s !! ws = Some e -> send_text ws msg s = (Raise e, s).
Proof. unfold send_text. intros ->. reflexivity. Qed.

Lemma in_session_send_open ws msg w :
  closed (session w) !! ws = None ->
  in_session (send_text ws msg) w = (Ok tt, delivered ws msg w).
Proof. intros H. by rewrite (in_session_Ok _ _ _ _ (send_text_open _ _ _ H)). Qed.

Lemma in_session_send_closed ws msg w e :
  closed (session w) !! ws = Some e ->
  in_session (send_text ws msg) w = (Raise e, w).
Proof.
  intros H. rewrite (in_session_Raise _ _ _ _ (send_text_closed _ _ _ _ H)).
  by rewrite set_session_same.
Qed.

End WorldLaws.

Ltac monad_unfold :=
  unfold bind, ret, raise, gets, modify, try_except, of_outcome,
    in_session, in_ext, zoom, logger_info, logger_warning, logger_error,
    state_of, outcome_of in *.

(** ** Invariants of computations *)

Section Preserves.

Context {St : Type} (P : St -> Prop).

Lemma preserves_ret {A} (a : A) : preserves P (ret a).
Proof. intros s Hs. exact Hs. Qed.

Lemma preserves_raise {A} e : preserves P (@raise St A e).
Proof. intros s Hs. exact Hs. Qed.

Lemma preserves_gets {A} (f : St -> A) : preserves P (gets f).
Proof. intros s Hs. exact Hs. Qed.

Lemma preserves_of_outcome {A} (o : outcome A) : preserves P (of_outcome o).
Proof. intros s Hs. exact Hs. Qed.

Lemma preserves_subscript {V} (d : St -> gmap string V) k :
  preserves P (subscript d k).
Proof. intros s Hs. unfold subscript, state_of. by destruct (d s !! k). Qed.

Lemma preserves_modify f : (forall s, P s -> P (f s)) -> preserves P (modify f).
Proof. intros Hf s Hs. apply Hf, Hs. Qed.

Lemma preserves_bind {A B} (m : ST St A) (k : A -> ST St B) :
  preserves P m -> (forall a, preserves P (k a)) -> preserves P (bind m k).
Proof.
  intros Hm Hk s Hs. specialize (Hm s Hs). unfold bind, state_of in *.
  destruct (m s) as [[a|e] s']; cbn in *; [by apply Hk | done].
Qed.

Lemma preserves_try_except {A} (m : ST St A) h :
  preserves P m -> (forall e, preserves P (h e)) -> preserves P (try_except m h).
Proof.
  intros Hm Hh s Hs. specialize (Hm s Hs). unfold try_except, state_of in *.
  destruct (m s) as [[a|e] s']; cbn in *; [done | by apply Hh].
Qed.

Lemma preserves_for_each {A} (xs : list A) body :
  (forall x, preserves P (body x)) -> preserves P (for_each xs body).
Proof.
  intros Hb. induction xs as [|x xs IH]; cbn [for_each].
  - apply preserves_ret.
  - apply preserves_bind; [apply Hb | intros _; apply IH].
Qed.

Lemma preserves_fold_each {A B} (xs : list A) (acc : B) body :
  (forall b x, preserves P (body b x)) -> preserves P (fold_each xs acc body).
Proof.
  intros Hb. revert acc. induction xs as [|x xs IH]; intros acc; cbn [fold_each].
  - apply preserves_ret.
  - apply preserves_bind; [apply Hb | intros b; apply IH].
Qed.

Lemma preserves_for_gen {A} (g : gen A) body :
  (forall x, preserves P (body x)) -> preserves P (for_gen g body).
Proof.
  intros Hb. unfold for_gen. apply preserves_bind; [by apply preserves_for_each|].
  intros _. destruct (finish g); [apply preserves_raise | apply preserves_ret].
Qed.

Lemma preserves_fold_gen {A B} (g : gen A) (acc : B) body :
  (forall b x, preserves P (body b x)) -> preserves P (fold_gen g acc body).
Proof.
  intros Hb. unfold fold_gen. apply preserves_bind; [by apply preserves_fold_each|].
  intros b. destruct (finish g); [apply preserves_raise | apply preserves_ret].
Qed.

End Preserves.

(** The steps that every handler is made of; [known] closes the calls that
    already have a lemma. *)
Ltac preserves_with HP known :=
  repeat first
    [ known
    | apply preserves_ret | apply preserves_raise | apply preserves_gets
    | apply preserves_of_outcome | apply preserves_subscript
    | apply preserves_for_gen; intros ?
    | apply preserves_fold_gen; intros ? ?
    | apply preserves_for_each; intros ?
    | apply preserves_fold_each; intros ? ?
    | apply preserves_try_except; [|intros ?]
    | apply preserves_bind; [|intros ?]
    | apply preserves_modify; intros ? ?;
      first [ by apply (inv_objs _ HP) | by apply (inv_modes _ HP)
            | by apply (inv_delete _ HP) ]
    | match goal with
      | |- preserves _ (match ?x with _ => _ end) => destruct x
      end ].

Section AdapterInvariants.

Context {sample ExtState : Type} {E : Externals sample ExtState}.
Context (P : World sample ExtState -> Prop) (HP : adapter_invariant P).
Implicit Types (w : World sample ExtState).

Lemma preserves_in_session {A} (m : ST (Session sample ExtState) A) :
  preserves P (in_session m).
Proof.
  intros w Hw. unfold in_session, zoom, state_of.
  destruct (m (session w)) as [o s]. cbn. by apply inv_session.
Qed.

Lemma preserves__get_adapter uid : preserves P (_get_adapter uid).
Proof.
  intros w Hw. unfold _get_adapter, new_OrphiqAdapter, subscript, state_of.
  unfold bind, gets, ret, raise, modify. cbn.
  destruct (client_adapters w !! uid) as [r|]; [done|].
  destruct (client_contexts (session w) !! uid) as [c|]; [|done].
  destruct (eq_str _ _); [|done]. cbn.
  rewrite lookup_insert_eq. cbn.
  apply (inv_create P HP (set_adapter_objs _ w) uid).
  by apply inv_objs.
Qed.

Lemma preserves_call_websocket_send f msg :
  preserves P (call_websocket_send f msg).
Proof.
  destruct f. unfold call_websocket_send.
  preserves_with HP ltac:(apply preserves_in_session).
Qed.

Lemma preserves_trigger_expression self a b c :
  preserves P (trigger_expression self a b c).
Proof.
  unfold trigger_expression, this, self_context, logger_error.
  preserves_with HP ltac:(apply preserves_call_websocket_send).
Qed.

Lemma preserves_trigger_motion self a b c d :
  preserves P (trigger_motion self a b c d).
Proof.
  unfold trigger_motion, this, self_context, logger_error.
  preserves_with HP ltac:(apply preserves_call_websocket_send).
Qed.

Lemma preserves_generate_text self a b : preserves P (generate_text self a b).
Proof.
  unfold generate_text, this, self_context.
  preserves_with HP ltac:(apply preserves_in_session).
Qed.

Lemma preserves_call_handler h ws uid d : preserves P (call_handler h ws uid d).
Proof.
  destruct h; cbn [call_handler];
    unfold _handle_group_operation, _handle_group_info,
      _handle_history_list_request, _handle_fetch_history,
      _handle_create_history, _handle_delete_history, _handle_interrupt,
      _handle_audio_data, _handle_conversation_trigger,
      _handle_raw_audio_data, on_vad_event, _handle_fetch_configs,
      _handle_config_switch, _handle_fetch_backgrounds,
      _handle_audio_play_start, _handle_expression_command,
      _handle_motion_command, _handle_text_generation_request,
      _handle_set_backend_mode, _handle_get_backend_mode,
      client_context, context_obj, logger_info, logger_error;
    preserves_with HP
      ltac:(first [ apply preserves_in_session
                  | apply preserves__get_adapter
                  | apply preserves_trigger_expression
                  | apply preserves_trigger_motion
                  | apply preserves_generate_text ]).
Qed.

Lemma preserves__route_message ws uid data :
  preserves P (_route_message ws uid data).
Proof.
  unfold _route_message, logger_warning.
  preserves_with HP ltac:(apply preserves_call_handler).
Qed.

Lemma preserves_handle_new_connection ws uid :
  preserves P (handle_new_connection ws uid).
Proof.
  unfold handle_new_connection, _init_service_context, _store_client_data,
    _send_initial_messages, context_obj, logger_info, logger_error.
  preserves_with HP ltac:(apply preserves_in_session).
Qed.

Lemma preserves_handle_websocket_communication ws uid inbox :
  preserves P (handle_websocket_communication ws uid inbox).
Proof.
  unfold handle_websocket_communication, receive_iteration, logger_error.
  preserves_with HP
    ltac:(first [ apply preserves_in_session | apply preserves__route_message ]).
Qed.

Lemma preserves_handle_disconnect uid : preserves P (handle_disconnect uid).
Proof.
  unfold handle_disconnect, logger_info.
  preserves_with HP ltac:(apply preserves_in_session).
Qed.

Lemma preserves_run_event ev w : P w -> P (run_event ev w).
Proof.
  destruct ev as [ws uid|ws uid inbox|uid|step]; cbn [run_event].
  - apply preserves_handle_new_connection.
  - apply preserves_handle_websocket_communication.
  - apply preserves_handle_disconnect.
  - apply (preserves_in_session step).
Qed.

Lemma run_preserves events w : P w -> P (run events w).
Proof.
  revert w. induction events as [|ev events IH]; intros w Hw; cbn; [done|].
  apply IH, preserves_run_event, Hw.
Qed.

End AdapterInvariants.

(** ** Switching the backend mode *)

Section BackendMode.

Context {sample ExtState : Type} {E : Externals sample ExtState}.
Implicit Types (w : World sample ExtState) (data : list (string * value)).

Lemma fresh_since_invariant t uid :
  adapter_invariant (fresh_since (sample := sample) (ExtState := ExtState) t uid).
Proof.
  split; unfold fresh_since; cbn; try tauto.
  - intros w uid' [Ht Hr]. split; [done|]. intros r.
    destruct (decide (uid' = uid)) as [->|Hne].
    + by rewrite lookup_delete_eq.
    + rewrite lookup_delete_ne by done. apply Hr.
  - intros w uid' [Ht Hr]. split; [lia|]. intros r.
    destruct (decide (uid' = uid)) as [->|Hne].
    + rewrite lookup_insert_eq. intros [= <-]. done.
    + rewrite lookup_insert_ne by done. apply Hr.
Qed.

Lemma adapters_allocated_invariant :
  adapter_invariant (adapters_allocated (sample := sample) (ExtState := ExtState)).
Proof.
  split; unfold adapters_allocated; cbn; try tauto.
  - intros w uid Hw. by apply map_Forall_delete.
  - intros w uid Hw. apply map_Forall_insert_2; [lia|].
    eapply map_Forall_impl; [exact Hw|]. cbn. intros; lia.
Qed.

(** From a handler that holds no adapter, every state reached holds only
    adapters that have been created. *)
Lemma reachable_adapters_allocated events w :
  client_adapters w = ∅ -> adapters_allocated (run events w).
Proof.
  intros Hempty. apply run_preserves; [apply adapters_allocated_invariant|].
  unfold adapters_allocated. rewrite Hempty. apply map_Forall_empty.
Qed.

(** A lookup that succeeds returns the adapter that the handler holds
    afterwards. *)
Lemma _get_adapter_Ok uid w r w' :
  _get_adapter uid w = (Ok r, w') -> client_adapters w' !! uid = Some r.
Proof.
  unfold _get_adapter, new_OrphiqAdapter, subscript.
  unfold bind, gets, ret, raise, modify. cbn.
  destruct (client_adapters w !! uid) as [r0|] eqn:Hr0.
  - intros [= <- <-]. exact Hr0.
  - destruct (client_contexts (session w) !! uid) as [c|]; [|done].
    destruct (eq_str _ _); [|done]. cbn.
    rewrite lookup_insert_eq. cbn. intros [= <- <-]. cbn.
    apply lookup_insert_eq.
Qed.

(** A lookup that fails leaves the process as it was. *)
Lemma _get_adapter_Raise uid w e w' :
  _get_adapter uid w = (Raise e, w') -> w' = w.
Proof.
  unfold _get_adapter, new_OrphiqAdapter, subscript.
  unfold bind, gets, ret, raise, modify. cbn.
  destruct (client_adapters w !! uid) as [r0|] eqn:Hr0; [done|].
  destruct (client_contexts (session w) !! uid) as [c|]; [|by intros [= _ <-]].
  destruct (eq_str _ _); [|by intros [= _ <-]]. cbn.
  rewrite lookup_insert_eq. done.
Qed.

(** In the default mode a registered client without adapter gets a new
    one, whose reference is the next unused one. *)
Lemma _get_adapter_creates uid w c :
  client_adapters w !! uid = None ->
  client_contexts (session w) !! uid = Some c ->
  eq_str (current_mode uid w) "orphiq" = true ->
  _get_adapter uid w = (Ok (next_adapter w), adapter_created uid c w).
Proof.
  intros Ha Hc Hm.
  unfold _get_adapter, new_OrphiqAdapter, subscript.
  unfold bind, gets, ret, raise, modify. cbn.
  rewrite Ha, Hc. unfold current_mode in Hm. rewrite Hm. cbn.
  by rewrite lookup_insert_eq.
Qed.

(** In the default mode the lookup for a registered client returns. *)
Lemma _get_adapter_returns uid w c :
  client_contexts (session w) !! uid = Some c ->
  eq_str (current_mode uid w) "orphiq" = true ->
  exists r w', _get_adapter uid w = (Ok r, w').
Proof.
  intros Hc Hm. destruct (client_adapters w !! uid) as [r|] eqn:Ha.
  - exists r, w. unfold _get_adapter. unfold bind, gets. by rewrite Ha.
  - eexists _, _. by apply _get_adapter_creates with (c := c).
Qed.

(** An accepted set-backend-mode removes the old entry and records the
    mode; what follows runs from that state. *)
Lemma _handle_set_backend_mode_accepted ws uid data w :
  accepted_mode data = true ->
  _handle_set_backend_mode ws uid data w =
    try_except
      (let* _ := _get_adapter uid in
       in_session
         (send_text ws (backend_mode_set_envelope (requested_mode data))))
      (fun e =>
         logger_error "Error setting backend mode" >>
         in_session (send_text ws (error_envelope (exn_str e))))
      (mode_recorded uid (requested_mode data) w).
Proof.
  intros Hmode. unfold _handle_set_backend_mode.
  unfold accepted_mode, requested_mode in *. rewrite Hmode. reflexivity.
Qed.

(** A refused set-backend-mode only answers. *)
Lemma _handle_set_backend_mode_refused ws uid data w :
  accepted_mode data = false ->
  _handle_set_backend_mode ws uid data w =
    try_except
      (in_session
         (send_text ws
            (error_envelope
               ("Invalid backend mode: " +:+ py_str (requested_mode data) +:+
                ". Must be one of: orphiq, external-api, autonomous"))))
      (fun e =>
         logger_error "Error setting backend mode" >>
         in_session (send_text ws (error_envelope (exn_str e))))
      w.
Proof.
  intros Hmode. unfold _handle_set_backend_mode.
  unfold accepted_mode, requested_mode in *. rewrite Hmode. reflexivity.
Qed.

(** After an accepted set-backend-mode the client holds no adapter created
    before the message was handled. *)
Lemma _handle_set_backend_mode_fresh ws uid data w :
  accepted_mode data = true ->
  fresh_since (next_adapter w) uid
    (state_of (_handle_set_backend_mode ws uid data w)).
Proof.
  intros Hmode. rewrite _handle_set_backend_mode_accepted by done.
  assert (Hmid : fresh_since (next_adapter w) uid
                   (mode_recorded uid (requested_mode data) w)).
  { split; cbn; [done|]. intros r. by rewrite lookup_delete_eq. }
  revert Hmid. generalize (mode_recorded uid (requested_mode data) w) as mid.
  generalize (next_adapter w) as t. intros t.
  change (preserves (fresh_since t uid)
            (try_except
               (let* _ := _get_adapter uid in
                in_session
                  (send_text ws (backend_mode_set_envelope (requested_mode data))))
               (fun e =>
                  logger_error "Error setting backend mode" >>
                  in_session (send_text ws (error_envelope (exn_str e)))))).
  unfold logger_error.
  preserves_with (fresh_since_invariant t uid)
    ltac:(first [ apply (preserves_in_session _ (fresh_since_invariant t uid))
                | apply (preserves__get_adapter _ (fresh_since_invariant t uid)) ]).
Qed.

(** C1.  After a set-backend-mode message with an accepted mode has been
    handled, the adapter that the handler holds for that client is never an
    instance created before the message: the previous adapter is out of the
    handler's table when the handler returns; after any further events the
    adapter held for the client, and every adapter that a lookup returns,
    has been created at or after the switch; such a lookup does return
    whenever the client is registered in the default mode, and right after
    a switch to the default mode it returns the adapter created by the
    switch.  (In a mode without adapter the lookup raises.) *)
Theorem no_stale_adapter_after_mode_switch ws uid data w events :
  accepted_mode data = true ->
  adapters_allocated w ->
  let switched := state_of (_handle_set_backend_mode ws uid data w) in
  let later := run events switched in
  (forall old, client_adapters w !! uid = Some old ->
     (old < next_adapter w)%nat /\ client_adapters switched !! uid <> Some old) /\
  (forall r, client_adapters later !! uid = Some r -> (next_adapter w <= r)%nat) /\
  (forall r w', _get_adapter uid later = (Ok r, w') -> (next_adapter w <= r)%nat) /\
  (forall c, client_contexts (session later) !! uid = Some c ->
     eq_str (current_mode uid later) "orphiq" = true ->
     exists r w',
       _get_adapter uid later = (Ok r, w') /\ (next_adapter w <= r)%nat) /\
  (forall c, client_contexts (session w) !! uid = Some c ->
     eq_str (requested_mode data) "orphiq" = true ->
     outcome_of (_get_adapter uid switched) = Ok (next_adapter w)).
Proof.
  intros Hmode Halloc switched later.
  pose proof (_handle_set_backend_mode_fresh ws uid data w Hmode) as Hfresh.
  fold switched in Hfresh.
  assert (Hlater : fresh_since (next_adapter w) uid later).
  { apply run_preserves; [apply fresh_since_invariant | exact Hfresh]. }
  assert (Hlookup : forall r w',
            _get_adapter uid later = (Ok r, w') -> (next_adapter w <= r)%nat).
  { intros r w' Hget.
    pose proof (preserves__get_adapter _ (fresh_since_invariant (next_adapter w) uid)
                  uid later Hlater) as Hw'.
    unfold state_of in Hw'. rewrite Hget in Hw'. cbn in Hw'.
    apply Hw'. eapply _get_adapter_Ok, Hget. }
  split; [|split; [|split; [|split]]].
  - intros old Hold. pose proof (Halloc uid old Hold) as Hlt. cbn in Hlt.
    split; [exact Hlt|]. intros Hsw. apply Hfresh in Hsw. lia.
  - apply Hlater.
  - exact Hlookup.
  - intros c Hc Hm. destruct (_get_adapter_returns uid later c Hc Hm) as (r & w' & Hget).
    exists r, w'. split; [exact Hget | by eapply Hlookup].
  - intros c Hc Horphiq. subst switched.
    rewrite _handle_set_backend_mode_accepted by done.
    set (mid := mode_recorded _ _ _).
    assert (Ha : client_adapters mid !! uid = None)
      by (cbn; apply lookup_delete_eq).
    assert (Hm : eq_str (current_mode uid mid) "orphiq" = true)
      by (unfold current_mode; cbn; by rewrite lookup_insert_eq).
    pose proof (_get_adapter_creates uid mid c Ha Hc Hm) as Hcreate.
    cbn [next_adapter mid mode_recorded set_backend_modes set_client_adapters] in Hcreate.
    set (created := adapter_created _ _ _) in Hcreate.
    assert (Hheld : forall m : ST (Session sample ExtState) unit, preserves
              (fun w1 => client_adapters w1 !! uid = Some (next_adapter w))
              (in_session m)).
    { intros m w1 Hw1. unfold in_session, zoom, state_of.
      by destruct (m (session w1)). }
    assert (Hend : client_adapters
              (state_of
                 (try_except
                    (let* _ := _get_adapter uid in
                     in_session
                       (send_text ws
                          (backend_mode_set_envelope (requested_mode data))))
                    (fun e =>
                       logger_error "Error setting backend mode" >>
                       in_session (send_text ws (error_envelope (exn_str e))))
                    mid)) !! uid = Some (next_adapter w)).
    { unfold try_except. rewrite (bind_Ok _ _ _ _ _ Hcreate).
      pose proof (Hheld (send_text ws
                   (backend_mode_set_envelope (requested_mode data))) created) as H1.
      unfold state_of in *.
      destruct (in_session _ created) as [[[]|e] w1]; cbn in H1 |- *.
      - apply H1. subst created. cbn. apply lookup_insert_eq.
      - apply (Hheld (send_text ws (error_envelope (exn_str e))) w1).
        apply H1. subst created. cbn. apply lookup_insert_eq. }
    unfold _get_adapter at 1. unfold bind at 1, gets at 1. rewrite Hend.
    reflexivity.
Qed.

(** In another recorded mode a registered client without adapter gets
    none: the lookup raises. *)
Lemma _get_adapter_not_implemented uid w c :
  client_adapters w !! uid = None ->
  client_contexts (session w) !! uid = Some c ->
  eq_str (current_mode uid w) "orphiq" = false ->
  _get_adapter uid w =
    (Raise (Exn ValueError
              ("Backend mode '" +:+ py_str (current_mode uid w) +:+
               "' not yet implemented")), w).
Proof.
  intros Ha Hc Hm.
  unfold _get_adapter, new_OrphiqAdapter, subscript.
  unfold bind, gets, ret, raise, modify. cbn.
  rewrite Ha, Hc. unfold current_mode in *. rewrite Hm. reflexivity.
Qed.

Lemma eq_str_accepted data :
  eq_str (requested_mode data) "orphiq" = true -> accepted_mode data = true.
Proof.
  unfold accepted_mode. destruct (requested_mode data); cbn; try done.
  intros ->. reflexivity.
Qed.

(** C2 (amended).  For a set-backend-mode message from a registered client
    whose socket is open: a mode outside orphiq, external-api, autonomous
    is answered by an error envelope and nothing else changes; the mode
    orphiq is accepted, the client's adapter is replaced by a new one and
    the acknowledgement carrying the mode is sent; the modes external-api
    and autonomous are recorded and the previous adapter is removed, but no
    adapter is created and an error envelope is sent, not the
    acknowledgement. *)
Theorem set_backend_mode_outcomes ws uid data w c :
  client_contexts (session w) !! uid = Some c ->
  closed (session w) !! ws = None ->
  let mode := requested_mode data in
  let result := _handle_set_backend_mode ws uid data w in
  (accepted_mode data = false ->
     result =
       (Ok tt,
        delivered ws
          (error_envelope
             ("Invalid backend mode: " +:+ py_str mode +:+
              ". Must be one of: orphiq, external-api, autonomous")) w)) /\
  (eq_str mode "orphiq" = true ->
     result =
       (Ok tt,
        delivered ws (backend_mode_set_envelope mode)
          (adapter_created uid c (mode_recorded uid mode w)))) /\
  (accepted_mode data = true -> eq_str mode "orphiq" = false ->
     result =
       (Ok tt,
        delivered ws
          (error_envelope
             ("Backend mode '" +:+ py_str mode +:+ "' not yet implemented"))
          (mode_recorded uid mode w))).
Proof.
  intros Hc Hopen mode result. subst result.
  split; [|split].
  - intros Hmode. rewrite _handle_set_backend_mode_refused by done.
    apply try_except_Ok. by apply in_session_send_open.
  - intros Horphiq.
    rewrite _handle_set_backend_mode_accepted by by apply eq_str_accepted.
    fold mode. set (mid := mode_recorded uid mode w).
    assert (Ha : client_adapters mid !! uid = None)
      by (cbn; apply lookup_delete_eq).
    assert (Hm : eq_str (current_mode uid mid) "orphiq" = true)
      by (unfold current_mode; cbn; by rewrite lookup_insert_eq).
    apply try_except_Ok.
    rewrite (bind_Ok _ _ _ _ _ (_get_adapter_creates uid mid c Ha Hc Hm)).
    by apply in_session_send_open.
  - intros Hmode Hother.
    rewrite _handle_set_backend_mode_accepted by done.
    fold mode. set (mid := mode_recorded uid mode w).
    assert (Ha : client_adapters mid !! uid = None)
      by (cbn; apply lookup_delete_eq).
    assert (Hcur : current_mode uid mid = mode)
      by (unfold current_mode; cbn; by rewrite lookup_insert_eq).
    assert (Hm : eq_str (current_mode uid mid) "orphiq" = false)
      by by rewrite Hcur.
    pose proof (_get_adapter_not_implemented uid mid c Ha Hc Hm) as Hget.
    rewrite Hcur in Hget.
    rewrite (try_except_Raise _ _ _ _ _ (bind_Raise _ _ _ _ _ Hget)).
    unfold logger_error. rewrite (bind_Ok _ _ mid tt mid eq_refl).
    by apply in_session_send_open.
Qed.

(** C3 (amended).  When the adapter cannot be obtained while
    expression-command, motion-command or text-generation-request is
    handled, an error envelope goes to the originating client and nothing
    else changes.  When adapter creation raises while set-backend-mode with
    an accepted mode is handled, an error envelope goes to the originating
    client and the client's context and audio buffer are as before; the
    recorded backend mode is the requested one and the client no longer has
    a stored adapter. *)
Theorem adapter_failure_outcomes ws uid data w e :
  closed (session w) !! ws = None ->
  (outcome_of (_get_adapter uid w) = Raise e ->
     (is_None (dict_get_default "expression_id" VNone data) = false ->
        _handle_expression_command ws uid data w =
          (Ok tt, delivered ws (error_envelope (exn_str e)) w)) /\
     (is_None (dict_get_default "motion_group" VNone data)
      || is_None (dict_get_default "motion_index" VNone data) = false ->
        _handle_motion_command ws uid data w =
          (Ok tt, delivered ws (error_envelope (exn_str e)) w)) /\
     (truthy (dict_get_default "prompt" (VStr "") data) = true ->
        _handle_text_generation_request ws uid data w =
          (Ok tt, delivered ws (error_envelope (exn_str e)) w))) /\
  (accepted_mode data = true ->
   outcome_of (_get_adapter uid (mode_recorded uid (requested_mode data) w))
     = Raise e ->
   let result := _handle_set_backend_mode ws uid data w in
   result =
     (Ok tt,
      delivered ws (error_envelope (exn_str e))
        (mode_recorded uid (requested_mode data) w)) /\
   client_contexts (session (state_of result)) = client_contexts (session w) /\
   context_objs (session (state_of result)) = context_objs (session w) /\
   received_data_buffers (session (state_of result))
     = received_data_buffers (session w) /\
   backend_modes (state_of result) !! uid = Some (requested_mode data) /\
   client_adapters (state_of result) !! uid = None).
Proof.
  intros Hopen. split.
  - intros Hget. unfold outcome_of in Hget.
    destruct (_get_adapter uid w) as [o w1] eqn:Heq. cbn in Hget. subst o.
    pose proof (_get_adapter_Raise _ _ _ _ Heq) as ->.
    repeat split.
    + intros Hid. unfold _handle_expression_command. rewrite Hid.
      rewrite (try_except_Raise _ _ _ _ _ (bind_Raise _ _ _ _ _ Heq)).
      unfold logger_error. rewrite (bind_Ok _ _ w tt w eq_refl).
      by apply in_session_send_open.
    + intros Hid. unfold _handle_motion_command. rewrite Hid.
      rewrite (try_except_Raise _ _ _ _ _ (bind_Raise _ _ _ _ _ Heq)).
      unfold logger_error. rewrite (bind_Ok _ _ w tt w eq_refl).
      by apply in_session_send_open.
    + intros Hp. unfold _handle_text_generation_request. rewrite Hp. cbn [negb].
      rewrite (try_except_Raise _ _ _ _ _ (bind_Raise _ _ _ _ _ Heq)).
      unfold logger_error. rewrite (bind_Ok _ _ w tt w eq_refl).
      by apply in_session_send_open.
  - intros Hmode Hget result. subst result.
    set (mid := mode_recorded uid (requested_mode data) w) in *.
    unfold outcome_of in Hget.
    destruct (_get_adapter uid mid) as [o w1] eqn:Heq. cbn in Hget. subst o.
    pose proof (_get_adapter_Raise _ _ _ _ Heq) as ->.
    rewrite _handle_set_backend_mode_accepted by done. fold mid.
    rewrite (try_except_Raise _ _ _ _ _ (bind_Raise _ _ _ _ _ Heq)).
    unfold logger_error. rewrite (bind_Ok _ _ mid tt mid eq_refl).
    rewrite in_session_send_open by done.
    repeat split; cbn.
    + apply lookup_insert_eq.
    + apply lookup_delete_eq.
Qed.

End BackendMode.

(** ** Routing *)

Section Routing.

Context {sample ExtState : Type} {E : Externals sample ExtState}.
Implicit Types (w : World sample ExtState) (d : list (string * value)).

Lemma _route_message_unknown ws uid d tag w :
  dict_get "type" d = Some (VStr tag) ->
  handlers_lookup tag _init_message_handlers = None ->
  _route_message ws uid (VDict d) w = (Ok tt, w).
Proof.
  intros Htype Hnone. unfold _route_message. rewrite Htype.
  destruct (negb (truthy (VStr tag))); [reflexivity|].
  cbn [hashable negb _message_handlers_get]. rewrite Hnone.
  by destruct (negb (eq_str (VStr tag) "frontend-playback-complete")).
Qed.

(** C4.  A message whose type tag has no registered handler selects no
    handler; routing it returns without sending anything and without
    changing the process; the loop turn that received it returns, and the
    frames that follow are processed as if it had not been there (only the
    message cache of [message_handler] has seen it). *)
Theorem unknown_tag_dropped ws uid d tag rest w x' :
  dict_get "type" d = Some (VStr tag) ->
  handlers_lookup tag _init_message_handlers = None ->
  message_handler_handle_message uid (VDict d) (ext (session w)) = (Ok tt, x') ->
  let seen := set_session (set_ext x' (session w)) w in
  _message_handlers_get (VStr tag) = None /\
  _route_message ws uid (VDict d) w = (Ok tt, w) /\
  sent (session (state_of (_route_message ws uid (VDict d) w)))
    = sent (session w) /\
  receive_iteration ws uid (Ok (VDict d)) w = (Ok tt, seen) /\
  handle_websocket_communication ws uid (Ok (VDict d) :: rest) w
    = handle_websocket_communication ws uid rest seen.
Proof.
  intros Htype Hnone Hseen seen.
  assert (Hiter : receive_iteration ws uid (Ok (VDict d)) w = (Ok tt, seen)).
  { unfold receive_iteration. apply try_except_Ok.
    rewrite (bind_Ok _ _ w (VDict d) w eq_refl).
    assert (Hmsg : in_session
              (in_ext (message_handler_handle_message uid (VDict d))) w
            = (Ok tt, seen)).
    { apply in_session_Ok. unfold in_ext, zoom. by rewrite Hseen. }
    rewrite (bind_Ok _ _ _ _ _ Hmsg).
    by apply _route_message_unknown with (tag := tag). }
  repeat split.
  - exact Hnone.
  - by apply _route_message_unknown with (tag := tag).
  - by rewrite (_route_message_unknown ws uid d tag w).
  - exact Hiter.
  - unfold handle_websocket_communication, try_except. cbn [for_each].
    by rewrite (bind_Ok _ _ _ _ _ Hiter).
Qed.

(** C5.  An interrupt-signal from a registered client takes the group path,
    for the client's group, when that group has more than one member, and
    the individual path for the client alone otherwise; either way the
    heard response is the text field of the message, the empty string when
    the field is absent. *)
Theorem interrupt_path ws uid d w c :
  client_contexts (session w) !! uid = Some c ->
  let heard_response := dict_get_default "text" (VStr "") d in
  let group := get_client_group (chat_group_manager (session w)) uid in
  (forall g, group = Some g -> (1 < size (members g))%nat ->
     _handle_interrupt ws uid d w =
       in_session
         (handle_group_interrupt (group_id g) heard_response broadcast_to_group)
         w) /\
  (forall g, group = Some g -> (size (members g) <= 1)%nat ->
     _handle_interrupt ws uid d w =
       in_session (handle_individual_interrupt uid c heard_response) w) /\
  (group = None ->
     _handle_interrupt ws uid d w =
       in_session (handle_individual_interrupt uid c heard_response) w) /\
  (dict_get "text" d = None -> heard_response = VStr "") /\
  (forall text, dict_get "text" d = Some text -> heard_response = text).
Proof.
  intros Hc heard_response group.
  assert (Hctx : client_context uid w = (Ok c, w)).
  { unfold client_context. unfold in_session, zoom, subscript. rewrite Hc. cbn.
    by rewrite set_session_same. }
  assert (Hstart :
            _handle_interrupt ws uid d w =
              match group with
              | Some g =>
                  if (1 <? size (members g))%nat
                  then in_session
                         (handle_group_interrupt (group_id g) heard_response
                            broadcast_to_group) w
                  else in_session
                         (handle_individual_interrupt uid c heard_response) w
              | None =>
                  in_session (handle_individual_interrupt uid c heard_response) w
              end) by
    (unfold _handle_interrupt;
     rewrite (bind_Ok _ _ _ _ _ Hctx); unfold bind, gets; fold group;
     destruct group as [g|]; [destruct (1 <? size (members g))%nat|];
     reflexivity).
  repeat split.
  - intros g Hg Hsize. rewrite Hstart, Hg.
    by apply Nat.ltb_lt in Hsize as ->.
  - intros g Hg Hsize. rewrite Hstart, Hg.
    assert ((1 <? size (members g))%nat = false) as -> by (apply Nat.ltb_ge; lia).
    reflexivity.
  - intros Hg. by rewrite Hstart, Hg.
  - intros Habs. subst heard_response. unfold dict_get_default. by rewrite Habs.
  - intros text Htext. subst heard_response. unfold dict_get_default.
    by rewrite Htext.
Qed.

End Routing.

(** ** Audio ingestion through the voice-activity detector *)

Section RawAudio.

Context {sample ExtState : Type} {E : Externals sample ExtState}.
Implicit Types (w : World sample ExtState) (s : Session sample ExtState).

Lemma frombuffer_int16_even_aux (b : list byte) :
  (Nat.even (length b) = true -> is_Some (frombuffer_int16 b)) /\
  (forall x, Nat.even (length (x :: b)) = true ->
     is_Some (frombuffer_int16 (x :: b))).
Proof.
  induction b as [|y b [IH1 IH2]].
  - split; [by eexists | intros x; cbn; discriminate].
  - split; [apply IH2|].
    intros x Heven. cbn [length] in Heven.
    change (Nat.even (length b) = true) in Heven.
    destruct (IH1 Heven) as [l Hl].
    cbn [frombuffer_int16]. rewrite Hl. by eexists.
Qed.

Lemma frombuffer_int16_even (b : list byte) :
  Nat.even (length b) = true -> is_Some (frombuffer_int16 b).
Proof. apply frombuffer_int16_even_aux. Qed.

Lemma set_session_set_session s1 s2 w :
  set_session s2 (set_session s1 w) = set_session s2 w.
Proof. reflexivity. Qed.

Lemma insert_is_alter (m : gmap string (list sample)) k old new :
  m !! k = Some old ->
  <[k := old ++ new]> m = alter (fun buffer => buffer ++ new) k m.
Proof.
  intros Hk. apply map_eq. intros i.
  destruct (decide (k = i)) as [->|Hne].
  - by rewrite lookup_insert_eq, lookup_alter_eq, Hk.
  - by rewrite lookup_insert_ne, lookup_alter_ne.
Qed.

(** One event: the handler does what [event_effect] says. *)
Lemma on_vad_event_effect ws uid audio_bytes w buffer :
  received_data_buffers (session w) !! uid = Some buffer ->
  closed (session w) !! ws = None ->
  whole_samples audio_bytes = true ->
  on_vad_event ws uid audio_bytes w =
    (Ok tt, set_session (event_effect ws uid audio_bytes (session w)) w).
Proof.
  intros Hbuf Hopen Hwhole.
  unfold on_vad_event, event_effect, whole_samples, classify in *.
  unfold logger_info.
  destruct (decide (audio_bytes = PAUSE)) as [_|_].
  { rewrite (bind_Ok _ _ w tt w eq_refl). by apply in_session_send_open. }
  destruct (decide (audio_bytes = RESUME)) as [_|_].
  { by rewrite set_session_same. }
  unfold segmentation_threshold in *.
  destruct (1024 <? length audio_bytes)%nat; [|by rewrite set_session_same].
  cbn [negb orb] in Hwhole.
  destruct (frombuffer_int16_even _ Hwhole) as [pcm Hpcm]. rewrite Hpcm.
  rewrite (bind_Ok _ _ w tt w eq_refl).
  assert (Hsub : in_session (subscript received_data_buffers uid) w = (Ok buffer, w)).
  { unfold in_session, zoom, subscript. rewrite Hbuf. cbn.
    by rewrite set_session_same. }
  rewrite (bind_Ok _ _ _ _ _ Hsub).
  rewrite (bind_Ok _ _ w pcm w eq_refl).
  set (s1 := set_received_data_buffers
               (insert uid (buffer ++ map astype_float32 pcm)) (session w)).
  rewrite (bind_Ok _ _ w tt (set_session s1 w) eq_refl).
  assert (Hsub1 : in_session (subscript received_data_buffers uid) (set_session s1 w)
                  = (Ok (buffer ++ map astype_float32 pcm), set_session s1 w)).
  { unfold in_session, zoom, subscript. cbn. by rewrite lookup_insert_eq. }
  rewrite (bind_Ok _ _ _ _ _ Hsub1).
  rewrite in_session_send_open by exact Hopen.
  unfold delivered. cbn [session set_session]. subst s1.
  cbn [default id]. unfold set_received_data_buffers.
  by rewrite (insert_is_alter _ _ _ _ Hbuf).
Qed.

Lemma event_effect_closed ws uid audio_bytes s :
  closed (event_effect ws uid audio_bytes s) = closed s.
Proof.
  unfold event_effect. destruct (classify audio_bytes); try reflexivity.
  by case_match.
Qed.

Lemma event_effect_sent ws uid audio_bytes s :
  sent (event_effect ws uid audio_bytes s)
  = sent s ++ frames_of_event ws audio_bytes.
Proof.
  unfold event_effect, frames_of_event.
  destruct (classify audio_bytes); cbn; [done | by rewrite app_nil_r |].
  case_match; cbn; [done | by rewrite app_nil_r].
Qed.

Lemma event_effect_buffer ws uid audio_bytes s buffer :
  received_data_buffers s !! uid = Some buffer ->
  received_data_buffers (event_effect ws uid audio_bytes s) !! uid
  = Some (buffer ++ map astype_float32 (samples_of_event audio_bytes)).
Proof.
  intros Hbuf. unfold event_effect, samples_of_event.
  destruct (classify audio_bytes); cbn; try by rewrite app_nil_r.
  case_match; cbn; [|by rewrite app_nil_r].
  by rewrite lookup_alter_eq, Hbuf.
Qed.

(** The events of one chunk, in order. *)
Lemma for_each_vad_events ws uid events w buffer :
  received_data_buffers (session w) !! uid = Some buffer ->
  closed (session w) !! ws = None ->
  forallb whole_samples events = true ->
  for_each events (on_vad_event ws uid) w =
    (Ok tt,
     set_session
       (fold_left (fun s ev => event_effect ws uid ev s) events (session w)) w).
Proof.
  revert w buffer. induction events as [|ev events IH]; intros w buffer Hbuf Hopen Hall.
  - cbn. by rewrite set_session_same.
  - cbn [forallb] in Hall. apply andb_true_iff in Hall as [Hev Hall].
    cbn [for_each fold_left].
    rewrite (bind_Ok _ _ _ _ _ (on_vad_event_effect ws uid ev w buffer Hbuf Hopen Hev)).
    rewrite (IH _ (buffer ++ map astype_float32 (samples_of_event ev))).
    + reflexivity.
    + cbn [session set_session]. by apply event_effect_buffer.
    + cbn [session set_session]. by rewrite event_effect_closed.
    + exact Hall.
Qed.

Lemma fold_event_effect_sent ws uid events s :
  sent (fold_left (fun s ev => event_effect ws uid ev s) events s)
  = sent s ++ flat_map (frames_of_event ws) events.
Proof.
  revert s. induction events as [|ev events IH]; intros s; cbn.
  - by rewrite app_nil_r.
  - by rewrite IH, event_effect_sent, <- app_assoc.
Qed.

Lemma fold_event_effect_buffer ws uid events s buffer :
  received_data_buffers s !! uid = Some buffer ->
  received_data_buffers
    (fold_left (fun s ev => event_effect ws uid ev s) events s) !! uid
  = Some (buffer ++ map astype_float32 (flat_map samples_of_event events)).
Proof.
  revert s buffer. induction events as [|ev events IH]; intros s buffer Hbuf; cbn.
  - by rewrite app_nil_r.
  - rewrite (IH _ _ (event_effect_buffer ws uid ev s buffer Hbuf)).
    by rewrite map_app, app_assoc.
Qed.

Lemma py_len_positive v n : py_len v = Ok (Datatypes.S n) -> truthy v = true.
Proof.
  destruct v as [| | |s|l|d]; cbn; try discriminate.
  - destruct s; cbn; [discriminate | done].
  - destruct l; cbn; [discriminate | done].
  - destruct d; cbn; [discriminate | done].
Qed.

(** C6.  A raw-audio-data message with a non-empty chunk from a registered
    client, whose socket is open and whose detector yields whole 16-bit
    samples: the handler applies [event_effect] to the events of the chunk
    in the order the detector yields them (and ends the way the detector's
    generator ends).  So the frames sent are, event by event, the interrupt
    signal for a pause marker, the end-of-utterance signal for a segment
    above the threshold and nothing for a resume marker, all to the sender;
    and the sender's buffer grows by the samples of the segments above the
    threshold, in order. *)
Theorem raw_audio_events_in_order ws uid d w c buffer n events x' :
  client_contexts (session w) !! uid = Some c ->
  received_data_buffers (session w) !! uid = Some buffer ->
  closed (session w) !! ws = None ->
  let chunk := dict_get_default "audio" (VList []) d in
  py_len chunk = Ok (Datatypes.S n) ->
  detect_speech (vad_engine (context_objs (session w) !!! c)) chunk
    (ext (session w)) = (Ok events, x') ->
  forallb whole_samples (items events) = true ->
  let final :=
    fold_left (fun s ev => event_effect ws uid ev s) (items events)
      (set_ext x' (session w)) in
  _handle_raw_audio_data ws uid d w
  = (match finish events with None => Ok tt | Some e => Raise e end,
     set_session final w) /\
  sent final = sent (session w) ++ flat_map (frames_of_event ws) (items events) /\
  received_data_buffers final !! uid
  = Some (buffer ++
          map astype_float32 (flat_map samples_of_event (items events))).
Proof.
  intros Hc Hbuf Hopen chunk Hlen Hvad Hwhole final.
  split; [|split].
  - unfold _handle_raw_audio_data.
    assert (Hctx : client_context uid w = (Ok c, w)).
    { unfold client_context, in_session, zoom, subscript. rewrite Hc. cbn.
      by rewrite set_session_same. }
    rewrite (bind_Ok _ _ _ _ _ Hctx).
    unfold logger_info. rewrite (bind_Ok _ _ w tt w eq_refl).
    fold chunk. rewrite (py_len_positive _ _ Hlen).
    rewrite (bind_Ok _ _ w (Datatypes.S n) w)
      by (unfold of_outcome; by rewrite Hlen).
    assert (Hobj : context_obj c w = (Ok (context_objs (session w) !!! c), w))
      by reflexivity.
    rewrite (bind_Ok _ _ _ _ _ Hobj).
    set (w1 := set_session (set_ext x' (session w)) w).
    assert (Hdet : in_session
              (in_ext (detect_speech (vad_engine (context_objs (session w) !!! c)) chunk)) w
            = (Ok events, w1)).
    { apply in_session_Ok. unfold in_ext, zoom. by rewrite Hvad. }
    rewrite (bind_Ok _ _ _ _ _ Hdet).
    unfold for_gen.
    rewrite (bind_Ok _ _ _ _ _
               (for_each_vad_events ws uid (items events) w1 buffer Hbuf Hopen Hwhole)).
    by destruct (finish events).
  - subst final. by rewrite fold_event_effect_sent.
  - subst final. by apply fold_event_effect_buffer.
Qed.

End RawAudio.

(** ** The adapter operations *)

Section AdapterOperations.

Context {sample ExtState : Type} {E : Externals sample ExtState}.
Implicit Types (w : World sample ExtState).

(** The notification of a trigger either raises and leaves the process as
    it was, or returns with at most one more frame delivered. *)
Lemma call_websocket_send_Raise f msg w e w' :
  call_websocket_send f msg w = (Raise e, w') -> w' = w.
Proof.
  destruct f as [uid]. unfold call_websocket_send, send_text. monad_unfold. cbn.
  destruct (client_connections (session w) !! uid) as [ws|]; [|congruence].
  cbn. destruct (closed (session w) !! ws); [|congruence].
  cbn. intros [= _ <-]. apply set_session_same.
Qed.

Lemma call_websocket_send_frame f msg w o w' :
  call_websocket_send f msg w = (o, w') ->
  exists s, w' = set_session s w.
Proof.
  destruct f as [uid]. unfold call_websocket_send. unfold bind, gets.
  destruct (client_connections (session w) !! uid) as [ws|].
  - unfold in_session, zoom. destruct (send_text ws msg (session w)) as [o' s].
    intros [= _ <-]. by exists s.
  - unfold ret. intros [= _ <-]. exists (session w). by rewrite set_session_same.
Qed.

(** [trigger_expression], step by step. *)
Lemma trigger_expression_cases self expression_id duration priority w :
  let ctx := context_objs (session w) !!! context (adapter_objs w !!! self) in
  let payload actions :=
    VDict [("type", VStr "audio");
           ("audio", VNone);
           ("volumes", VList []);
           ("slice_length", VInt 20);
           ("display_text",
             VDict [("text", VStr ("Expression " +:+ py_str expression_id));
                    ("name", VStr (character_name (character_config ctx)));
                    ("avatar", VStr (avatar (character_config ctx)))]);
           ("actions", actions);
           ("forwarded", VBool false)] in
  trigger_expression self expression_id duration priority w =
    match Actions_to_dict [expression_id] with
    | Raise e => (Ok (error_record e), w)
    | Ok actions =>
        match call_websocket_send (websocket_send (adapter_objs w !!! self))
                (payload actions) w with
        | (Raise e, w') => (Ok (error_record e), w')
        | (Ok _, w') =>
            (Ok (expression_success expression_id duration priority),
             set_adapter_objs
               (fun h => <[self := set__current_expression expression_id
                                     (h !!! self)]> h) w')
        end
    end.
Proof.
  intros ctx payload. unfold trigger_expression, try_except.
  unfold bind at 1, of_outcome at 1.
  destruct (Actions_to_dict [expression_id]) as [actions|e]; [|reflexivity].
  unfold bind at 1, self_context at 1, gets at 1. fold ctx.
  unfold bind at 1, this at 1, gets at 1.
  unfold bind at 1. fold (payload actions).
  destruct (call_websocket_send _ _ w) as [[[]|e] w']; reflexivity.
Qed.

Lemma trigger_motion_cases self motion_group motion_index loop priority w :
  let payload :=
    VDict [("type", VStr "motion-command");
           ("motion_group", motion_group);
           ("motion_index", motion_index);
           ("loop", loop);
           ("priority", priority)] in
  trigger_motion self motion_group motion_index loop priority w =
    match call_websocket_send (websocket_send (adapter_objs w !!! self)) payload w with
    | (Raise e, w') => (Ok (error_record e), w')
    | (Ok _, w') =>
        (Ok (motion_success motion_group motion_index loop priority),
         set_adapter_objs
           (fun h => <[self := set__current_motion
                                 (VDict [("group", motion_group);
                                         ("index", motion_index);
                                         ("loop", loop)])
                                 (h !!! self)]> h) w')
    end.
Proof.
  intros payload. unfold trigger_motion, try_except.
  unfold bind at 1, this at 1, gets at 1.
  unfold bind at 1. fold payload.
  destruct (call_websocket_send _ _ w) as [[[]|e] w']; reflexivity.
Qed.



(** C10.  If the websocket notification inside [trigger_expression] or
    [trigger_motion] raises, the operation returns the record with status
    "error" and leaves the process as it was: [get_character_state]
    afterwards returns what it returned before, the same
    [current_expression] and [current_motion]. *)
Theorem trigger_notification_failure self expression_id duration priority
    actions motion_group motion_index loop motion_priority w e :
  (forall msg,
     outcome_of
       (call_websocket_send (websocket_send (adapter_objs w !!! self)) msg w)
     = Raise e) ->
  Actions_to_dict [expression_id] = Ok actions ->
  let after_expression :=
    trigger_expression self expression_id duration priority w in
  let after_motion :=
    trigger_motion self motion_group motion_index loop motion_priority w in
  after_expression = (Ok (error_record e), w) /\
  after_motion = (Ok (error_record e), w) /\
  get_character_state self (state_of after_expression)
    = get_character_state self w /\
  get_character_state self (state_of after_motion)
    = get_character_state self w.
Proof.
  intros Hsend Hactions after_expression after_motion.
  assert (Hraise : forall msg,
            call_websocket_send (websocket_send (adapter_objs w !!! self)) msg w
            = (Raise e, w)).
  { intros msg. specialize (Hsend msg). unfold outcome_of in Hsend.
    destruct (call_websocket_send _ msg w) as [o w'] eqn:Hcall.
    cbn in Hsend. subst o.
    by rewrite (call_websocket_send_Raise _ _ _ _ _ Hcall). }
  assert (H1 : after_expression = (Ok (error_record e), w)).
  { subst after_expression. rewrite trigger_expression_cases, Hactions.
    by rewrite Hraise. }
  assert (H2 : after_motion = (Ok (error_record e), w)).
  { subst after_motion. rewrite trigger_motion_cases. by rewrite Hraise. }
  rewrite H1, H2. done.
Qed.

End AdapterOperations.

(** ** The handlers that use the adapter *)

Section AdapterHandlers.

Context {sample ExtState : Type} {E : Externals sample ExtState}.
Implicit Types (w : World sample ExtState) (data : list (string * value)).



Lemma _get_adapter_modes uid w o w' :
  _get_adapter uid w = (o, w') -> backend_modes w' = backend_modes w.
Proof.
  unfold _get_adapter, new_OrphiqAdapter, subscript.
  unfold bind, gets, ret, raise, modify. cbn.
  destruct (client_adapters w !! uid) as [r0|]; [by intros [= _ <-]|].
  destruct (client_contexts (session w) !! uid) as [c|]; [|by intros [= _ <-]].
  destruct (eq_str _ _); [|by intros [= _ <-]]. cbn.
  rewrite lookup_insert_eq. by intros [= _ <-].
Qed.



(** What get-backend-mode answers. *)
Lemma _handle_get_backend_mode_reports ws uid data w :
  closed (session w) !! ws = None ->
  _handle_get_backend_mode ws uid data w
  = (Ok tt, delivered ws (backend_mode_envelope (current_mode uid w)) w).
Proof.
  intros Hopen. unfold _handle_get_backend_mode.
  apply try_except_Ok.
  assert (Hmodes : gets backend_modes w = (Ok (backend_modes w), w)) by reflexivity.
  rewrite (bind_Ok _ _ _ _ _ Hmodes).
  by apply in_session_send_open.
Qed.

(** Sending leaves the recorded modes, the adapters held and the adapter
    objects alone. *)
Lemma in_session_keeps {A} (m : ST (Session sample ExtState) A) w :
  backend_modes (state_of (in_session m w)) = backend_modes w /\
  client_adapters (state_of (in_session m w)) = client_adapters w /\
  adapter_objs (state_of (in_session m w)) = adapter_objs w.
Proof. unfold in_session, zoom, state_of. by destruct (m (session w)). Qed.

(** Whatever happens in a trigger, the recorded modes and the adapters
    held stay. *)
Lemma trigger_expression_keeps self expression_id duration priority w :
  let w' := state_of (trigger_expression self expression_id duration priority w) in
  backend_modes w' = backend_modes w /\ client_adapters w' = client_adapters w.
Proof.
  cbv zeta. rewrite trigger_expression_cases.
  destruct (Actions_to_dict [expression_id]) as [actions|e]; [|done].
  destruct (call_websocket_send _ _ w) as [o w1] eqn:Hcall.
  destruct (call_websocket_send_frame _ _ _ _ _ Hcall) as [s ->].
  by destruct o as [[]|e].
Qed.

(** The expression command never touches the recorded modes. *)
Lemma _handle_expression_command_modes ws uid data w :
  backend_modes (state_of (_handle_expression_command ws uid data w))
  = backend_modes w.
Proof.
  unfold _handle_expression_command.
  set (P := fun w2 : World sample ExtState => backend_modes w2 = backend_modes w).
  change (P (state_of
               (try_except
                  (let expression_id := dict_get_default "expression_id" VNone data in
                   if is_None expression_id then
                     in_session
                       (send_text ws (error_envelope "expression_id is required"))
                   else
                     let duration := dict_get_default "duration" (VInt 0) data in
                     let priority := dict_get_default "priority" (VInt 0) data in
                     let* adapter := _get_adapter uid in
                     let* result :=
                       trigger_expression adapter expression_id duration priority in
                     in_session
                       (send_text ws
                          (VDict [("type", VStr "expression-ack");
                                  ("expression_id", expression_id);
                                  ("result", result)])))
                  (fun e =>
                     logger_error "Error handling expression command" >>
                     in_session (send_text ws (error_envelope (exn_str e))))
                  w))).
  assert (Hsession : forall A (m : ST (Session sample ExtState) A),
            preserves P (in_session m)).
  { intros A m w2 Hw2. unfold P in *.
    by rewrite (proj1 (in_session_keeps m w2)). }
  assert (Hbody : preserves P
            (try_except
               (let expression_id := dict_get_default "expression_id" VNone data in
                if is_None expression_id then
                  in_session
                    (send_text ws (error_envelope "expression_id is required"))
                else
                  let duration := dict_get_default "duration" (VInt 0) data in
                  let priority := dict_get_default "priority" (VInt 0) data in
                  let* adapter := _get_adapter uid in
                  let* result :=
                    trigger_expression adapter expression_id duration priority in
                  in_session
                    (send_text ws
                       (VDict [("type", VStr "expression-ack");
                               ("expression_id", expression_id);
                               ("result", result)])))
               (fun e =>
                  logger_error "Error handling expression command" >>
                  in_session (send_text ws (error_envelope (exn_str e)))))).
  { apply preserves_try_except.
    - cbv zeta. destruct (is_None _); [apply Hsession|].
      apply preserves_bind.
      + intros w2 Hw2. unfold P, state_of in *.
        destruct (_get_adapter uid w2) as [o w3] eqn:Hget. cbn.
        by rewrite (_get_adapter_modes _ _ _ _ Hget).
      + intros adapter. apply preserves_bind; [|intros result; apply Hsession].
        intros w2 Hw2. unfold P in *.
        by rewrite (proj1 (trigger_expression_keeps adapter _ _ _ w2)).
    - intros e. unfold logger_error.
      apply preserves_bind; [apply preserves_ret | intros _; apply Hsession]. }
  by apply Hbody.
Qed.

(** C9.  Handling expression-command with expression id [e] and duration 0
    leaves the recorded backend modes as they were, so a get-backend-mode
    afterwards answers the mode it would have answered before.  When the
    client has or can get an adapter and the notification of the adapter
    goes through, the client holds that adapter afterwards and
    [get_character_state] on it shows [current_expression] = [e]. *)
Theorem expression_command_effects ws uid data w e :
  dict_get "expression_id" data = Some e ->
  is_None e = false ->
  dict_get "duration" data = Some (VInt 0) ->
  let w' := state_of (_handle_expression_command ws uid data w) in
  backend_modes w' = backend_modes w /\
  (forall ws2 data2,
     closed (session w') !! ws2 = None ->
     _handle_get_backend_mode ws2 uid data2 w'
     = (Ok tt, delivered ws2 (backend_mode_envelope (current_mode uid w)) w')) /\
  (forall adapter w1 actions,
     _get_adapter uid w = (Ok adapter, w1) ->
     Actions_to_dict [e] = Ok actions ->
     (forall msg,
        outcome_of
          (call_websocket_send (websocket_send (adapter_objs w1 !!! adapter)) msg w1)
        = Ok tt) ->
     client_adapters w' !! uid = Some adapter /\
     exists state,
       get_character_state adapter w' = (Ok state, w') /\
       field "current_expression" state = Some e).
Proof.
  intros Hid Hnone Hdur w'.
  pose proof (_handle_expression_command_modes ws uid data w) as Hmodes.
  fold w' in Hmodes.
  split; [exact Hmodes|]. split.
  { intros ws2 data2 Hopen. rewrite _handle_get_backend_mode_reports by done.
    unfold current_mode. by rewrite Hmodes. }
  intros adapter w1 actions Hget Hactions Hsend.
  set (P := fun w2 : World sample ExtState =>
              client_adapters w2 !! uid = Some adapter /\
              _current_expression (adapter_objs w2 !!! adapter) = e).
  assert (HPsession : forall A (m : ST (Session sample ExtState) A),
            preserves P (in_session m)).
  { intros A m w2 Hw2. unfold P in *.
    destruct (in_session_keeps m w2) as (_ & -> & ->). exact Hw2. }
  assert (HP : P w').
  { subst w'. unfold _handle_expression_command.
    unfold dict_get_default. rewrite Hid, Hnone, Hdur.
    unfold try_except. rewrite (bind_Ok _ _ _ _ _ Hget).
    set (priority := match dict_get "priority" data with
                     | Some v => v
                     | None => VInt 0
                     end).
    assert (Htrig : exists w3,
              trigger_expression adapter e (VInt 0) priority w1
              = (Ok (expression_success e (VInt 0) priority), w3) /\ P w3).
    { rewrite trigger_expression_cases, Hactions.
      match goal with
      | |- context [call_websocket_send ?f ?msg w1] =>
          pose proof (Hsend msg) as Hmsg;
          destruct (call_websocket_send f msg w1) as [o w2] eqn:Hcall
      end.
      unfold outcome_of in Hmsg. cbn in Hmsg. subst o.
      destruct (call_websocket_send_frame _ _ _ _ _ Hcall) as [s ->].
      eexists. split; [reflexivity|].
      subst P. cbn. split.
      - eapply _get_adapter_Ok, Hget.
      - by rewrite lookup_total_insert_eq. }
    destruct Htrig as (w3 & Htrig & HP3).
    rewrite (bind_Ok _ _ _ _ _ Htrig).
    pose proof (HPsession _
                  (send_text ws
                     (VDict [("type", VStr "expression-ack");
                             ("expression_id", e);
                             ("result", expression_success e (VInt 0) priority)]))
                  w3 HP3) as Hack.
    unfold state_of in *.
    destruct (in_session _ w3) as [[[]|e'] w4]; cbn in Hack |- *; [exact Hack|].
    apply (HPsession _ (send_text ws (error_envelope (exn_str e'))) w4 Hack). }
  destruct HP as (Hheld & Hexpr).
  split; [exact Hheld|].
  eexists. split; [reflexivity|]. cbn. by rewrite Hexpr.
Qed.

End AdapterHandlers.

(** ** The repository's tests, replayed on the embedding *)

(** [test_get_adapter_creates_orphiq_adapter]. *)
Example test_get_adapter_creates_orphiq_adapter :
  let r := _get_adapter (E := quiet) client_uid_1 one_client in
  outcome_of r = Ok 0%nat /\
  client_adapters (state_of r) !! client_uid_1 = Some 0%nat /\
  adapter_objs (state_of r) !! 0%nat
  = Some (OrphiqAdapter.__init__ 0%nat (send_to client_uid_1)).
Proof. vm_compute. done. Qed.

(** [test_set_backend_mode_handler]. *)
Example test_set_backend_mode_handler :
  let r :=
    _handle_set_backend_mode (E := quiet) 1%nat client_uid_1 (set_mode "orphiq")
      one_client in
  last (sent (session (state_of r)))
  = Some (1%nat, backend_mode_set_envelope (VStr "orphiq")) /\
  backend_modes (state_of r) !! client_uid_1 = Some (VStr "orphiq").
Proof. vm_compute. done. Qed.

(** [test_set_backend_mode_invalid]. *)
Example test_set_backend_mode_invalid :
  last (sent (session (state_of
          (_handle_set_backend_mode (E := quiet) 1%nat client_uid_1
             (set_mode "invalid-mode") one_client))))
  = Some (1%nat,
          error_envelope
            "Invalid backend mode: invalid-mode. Must be one of: orphiq, external-api, autonomous").
Proof. vm_compute. reflexivity. Qed.

(** [test_get_backend_mode_handler]. *)
Example test_get_backend_mode_handler :
  last (sent (session (state_of
          (_handle_get_backend_mode 1%nat client_uid_1
             [("type", VStr "get-backend-mode")] one_client))))
  = Some (1%nat, backend_mode_envelope (VStr "orphiq")).
Proof. vm_compute. reflexivity. Qed.

(** [test_expression_command_missing_id]. *)
Example test_expression_command_missing_id :
  last (sent (session (state_of
          (_handle_expression_command (E := quiet) 1%nat client_uid_1
             [("type", VStr "expression-command")] one_client))))
  = Some (1%nat, error_envelope "expression_id is required").
Proof. vm_compute. reflexivity. Qed.

(** [test_trigger_expression] and [test_trigger_expression_updates_state]. *)
Example test_trigger_expression :
  let r :=
    trigger_expression (E := quiet) 0%nat (VInt 0) (VInt 1000) (VInt 1)
      one_client_with_adapter in
  outcome_of r = Ok (expression_success (VInt 0) (VInt 1000) (VInt 1)) /\
  (exists payload,
     last (sent (session (state_of r))) = Some (1%nat, payload) /\
     field "type" payload = Some (VStr "audio") /\
     field "actions" payload = Some (VDict [("expressions", VList [VInt 0])])) /\
  (exists state,
     outcome_of (get_character_state 0%nat (state_of r)) = Ok state /\
     field "current_expression" state = Some (VInt 0)).
Proof. vm_compute. split; [done|]. split; eexists; done. Qed.

(** [test_trigger_motion] and [test_trigger_motion_updates_state]. *)
Example test_trigger_motion :
  let r :=
    trigger_motion 0%nat (VStr "idle") (VInt 0) (VBool true) (VInt 1)
      one_client_with_adapter in
  outcome_of r
  = Ok (motion_success (VStr "idle") (VInt 0) (VBool true) (VInt 1)) /\
  exists state,
    outcome_of (get_character_state 0%nat (state_of r)) = Ok state /\
    field "current_motion" state
    = Some (VDict [("group", VStr "idle"); ("index", VInt 0);
                   ("loop", VBool true)]).
Proof. vm_compute. split; [done|]. eexists; done. Qed.

(** [test_generate_text_multiple_chunks]. *)
Example test_generate_text_multiple_chunks :
  outcome_of
    (generate_text (E := talking) 0%nat (VStr "Test prompt") VNone
       one_client_with_adapter)
  = Ok (Gen ["Hello, "; "world!"] None).
Proof. vm_compute. reflexivity. Qed.

(** A type tag that is a list cannot be looked up in the handler table: the
    loop answers with an error envelope and goes on. *)
Example unhashable_type_tag :
  handle_websocket_communication (E := quiet) 1%nat client_uid_1
    [Ok (VDict [("type", VList [VInt 1])])] one_client
  = (Ok tt, delivered 1%nat (error_envelope "unhashable type") one_client).
Proof. vm_compute. reflexivity. Qed.

(** ** The properties on the test doubles *)

(** The states used below are states the handler reaches. *)
Lemma one_client_with_adapter_allocated :
  adapters_allocated one_client_with_adapter.
Proof. unfold adapters_allocated. apply (bool_decide_unpack _). vm_compute. exact I. Qed.

(** C1 on the test doubles: the client used adapter 0; after set-backend-mode,
    then another command, a disconnect and a new connection, no lookup
    returns adapter 0. *)
Lemma no_stale_adapter_witness :
  accepted_mode (set_mode "orphiq") = true /\
  adapters_allocated one_client_with_adapter /\
  client_adapters one_client_with_adapter !! client_uid_1 = Some 0%nat /\
  next_adapter one_client_with_adapter = 1%nat /\
  forall r w',
    _get_adapter (E := quiet) client_uid_1
      (run (E := quiet)
         [Receive 1%nat client_uid_1 [Ok (VDict (expression_command 3))];
          Disconnect client_uid_1;
          Connect 2%nat client_uid_1]
         (state_of
            (_handle_set_backend_mode (E := quiet) 1%nat client_uid_1
               (set_mode "orphiq") one_client_with_adapter)))
    = (Ok r, w') ->
    (1 <= r)%nat.
Proof.
  split; [reflexivity|]. split; [exact one_client_with_adapter_allocated|].
  split; [reflexivity|]. split; [reflexivity|].
  intros r w'.
  apply (no_stale_adapter_after_mode_switch (E := quiet) 1%nat client_uid_1
           (set_mode "orphiq") one_client_with_adapter _ eq_refl
           one_client_with_adapter_allocated).
Defined.

(** C2 as the specification states it fails on the code: external-api is in
    the stated set but gets no adapter and no acknowledgement; bridge is in
    the stated set but is refused; orphiq is outside the stated set but is
    accepted and recorded. *)
Lemma stated_set_backend_mode_fails :
  ~ stated_set_backend_mode (E := quiet) 1%nat client_uid_1
      (set_mode "external-api") one_client /\
  ~ stated_set_backend_mode (E := quiet) 1%nat client_uid_1
      (set_mode "bridge") one_client /\
  ~ stated_set_backend_mode (E := quiet) 1%nat client_uid_1
      (set_mode "orphiq") one_client.
Proof.
  split; [|split].
  - intros [[adapter [Ha _]] _]. vm_compute in Ha. discriminate Ha.
  - intros [[adapter [Ha _]] _]. vm_compute in Ha. discriminate Ha.
  - intros [_ Hmodes].
    apply (f_equal (fun m => m !! client_uid_1)) in Hmodes.
    vm_compute in Hmodes. discriminate Hmodes.
Qed.

(** C2 (amended) on the test doubles, for the mode external-api. *)
Lemma set_backend_mode_outcomes_witness :
  client_contexts (session one_client) !! client_uid_1 = Some 0%nat /\
  closed (session one_client) !! 1%nat = None /\
  accepted_mode (set_mode "external-api") = true /\
  eq_str (requested_mode (set_mode "external-api")) "orphiq" = false /\
  _handle_set_backend_mode (E := quiet) 1%nat client_uid_1
    (set_mode "external-api") one_client =
    (Ok tt,
     delivered 1%nat
       (error_envelope "Backend mode 'external-api' not yet implemented")
       (mode_recorded client_uid_1 (VStr "external-api") one_client)).
Proof.
  split; [reflexivity|]. split; [reflexivity|].
  split; [reflexivity|]. split; [reflexivity|].
  apply (set_backend_mode_outcomes (E := quiet) 1%nat client_uid_1
           (set_mode "external-api") one_client 0%nat eq_refl eq_refl);
    reflexivity.
Defined.

(** C3 as the specification states it fails on the code: the client had the
    default mode and adapter 0; after the failed switch to external-api the
    mode is external-api and the adapter is gone. *)
Lemma stated_adapter_error_fails :
  ~ stated_adapter_error (E := quiet) 1%nat client_uid_1
      (set_mode "external-api") one_client_with_adapter.
Proof.
  intros H.
  destruct (H (Exn ValueError "Backend mode 'external-api' not yet implemented")
              eq_refl eq_refl) as [_ Hsame].
  vm_compute in Hsame. discriminate Hsame.
Qed.

(** C3 (amended) on the test doubles. *)
Lemma adapter_failure_outcomes_witness :
  closed (session one_client_with_adapter) !! 1%nat = None /\
  accepted_mode (set_mode "external-api") = true /\
  backend_modes one_client_with_adapter !! client_uid_1 = None /\
  client_adapters one_client_with_adapter !! client_uid_1 = Some 0%nat /\
  let result :=
    _handle_set_backend_mode (E := quiet) 1%nat client_uid_1
      (set_mode "external-api") one_client_with_adapter in
  backend_modes (state_of result) !! client_uid_1 = Some (VStr "external-api") /\
  client_adapters (state_of result) !! client_uid_1 = None.
Proof.
  split; [reflexivity|]. split; [reflexivity|].
  split; [reflexivity|]. split; [reflexivity|].
  pose proof (adapter_failure_outcomes (E := quiet) 1%nat client_uid_1
                (set_mode "external-api") one_client_with_adapter
                (Exn ValueError "Backend mode 'external-api' not yet implemented")
                eq_refl) as [_ H].
  destruct (H eq_refl eq_refl) as (_ & _ & _ & _ & Hmode & Hadapter).
  split; [exact Hmode | exact Hadapter].
Defined.

(** C4 on the test doubles: the tag foo-bar. *)
Lemma unknown_tag_dropped_witness :
  dict_get "type" foo_bar = Some (VStr "foo-bar") /\
  handlers_lookup "foo-bar" _init_message_handlers = None /\
  _route_message (E := quiet) 1%nat client_uid_1 (VDict foo_bar) one_client
    = (Ok tt, one_client) /\
  handle_websocket_communication (E := quiet) 1%nat client_uid_1
    [Ok (VDict foo_bar); Ok (VDict (expression_command 1))] one_client
  = handle_websocket_communication (E := quiet) 1%nat client_uid_1
      [Ok (VDict (expression_command 1))] one_client.
Proof.
  split; [reflexivity|]. split; [reflexivity|].
  destruct (unknown_tag_dropped (E := quiet) 1%nat client_uid_1 foo_bar "foo-bar"
              [Ok (VDict (expression_command 1))] one_client [] eq_refl eq_refl
              eq_refl) as (_ & Hroute & _ & _ & Hloop).
  split; [exact Hroute | exact Hloop].
Defined.

(** C5 on the test doubles: alone, the client's interrupt goes the individual
    way; in a group of two it goes the group way, with the text heard. *)
Lemma interrupt_path_witness :
  ext (session (state_of
         (_handle_interrupt (E := quiet) 1%nat client_uid_1 interrupt_signal
            one_client)))
  = [VDict [("call", VStr "handle_individual_interrupt");
            ("args", VList [VStr client_uid_1; VStr "ok"])]] /\
  ext (session (state_of
         (_handle_interrupt (E := quiet) 1%nat client_uid_1 interrupt_signal
            one_client_in_group)))
  = [VDict [("call", VStr "handle_group_interrupt");
            ("args", VList [VStr "group-1"; VStr "ok"])]].
Proof.
  split.
  - destruct (interrupt_path (E := quiet) 1%nat client_uid_1 interrupt_signal
                one_client 0%nat eq_refl) as (_ & _ & Halone & _).
    rewrite (Halone eq_refl). reflexivity.
  - destruct (interrupt_path (E := quiet) 1%nat client_uid_1 interrupt_signal
                one_client_in_group 0%nat eq_refl) as (Hgroup & _).
    rewrite (Hgroup group_of_two eq_refl); [reflexivity|].
    apply Nat.ltb_lt. vm_compute. reflexivity.
Defined.

(** C6 on the test doubles: pause, resume, a long segment, a short one. *)
Lemma raw_audio_events_witness :
  let after :=
    state_of
      (_handle_raw_audio_data (E := listening) 1%nat client_uid_1 raw_audio_data
         one_client) in
  sent (session after)
  = sent (session one_client) ++
    [(1%nat, control_envelope "interrupt");
     (1%nat, control_envelope "mic-audio-end")] /\
  received_data_buffers (session after) !! client_uid_1 = Some (repeat 257 513%nat).
Proof.
  destruct (raw_audio_events_in_order (E := listening) 1%nat client_uid_1
              raw_audio_data one_client 0%nat [] 1%nat
              (Gen [PAUSE; RESUME; speech; [x01; x00; x02; x00; x03; x00; x04; x00]]
                 None)
              [] eq_refl eq_refl eq_refl eq_refl eq_refl eq_refl)
    as (Hrun & Hsent & Hbuffer).
  cbv zeta. rewrite Hrun. unfold state_of. cbn [snd session set_session].
  split.
  - rewrite Hsent. reflexivity.
  - rewrite Hbuffer. vm_compute. reflexivity.
Defined.



(** C9 on the test doubles: expression 3, duration 0. *)
Lemma expression_command_effects_witness :
  let after :=
    state_of
      (_handle_expression_command (E := quiet) 1%nat client_uid_1
         (expression_command 3) one_client) in
  backend_modes after = backend_modes one_client /\
  client_adapters after !! client_uid_1 = Some 0%nat /\
  exists state,
    get_character_state 0%nat after = (Ok state, after) /\
    field "current_expression" state = Some (VInt 3).
Proof.
  destruct (expression_command_effects (E := quiet) 1%nat client_uid_1
              (expression_command 3) one_client (VInt 3)
              eq_refl eq_refl eq_refl) as (Hmodes & _ & Hadapter).
  destruct (Hadapter 0%nat
              (state_of (_get_adapter (E := quiet) client_uid_1 one_client))
              (VDict [("expressions", VList [VInt 3])])
              eq_refl eq_refl (fun msg => eq_refl)) as (Hheld & Hstate).
  cbv zeta. split; [exact Hmodes|]. split; [exact Hheld | exact Hstate].
Defined.

(** C10 on the test doubles: the socket has gone away; the expression stays
    the one triggered before. *)
Lemma trigger_notification_failure_witness :
  trigger_expression (E := quiet) 0%nat (VInt 5) (VInt 0) (VInt 0)
    one_client_unreachable
  = (Ok (error_record socket_gone), one_client_unreachable) /\
  trigger_motion 0%nat (VStr "idle") (VInt 0) (VBool false) (VInt 0)
    one_client_unreachable
  = (Ok (error_record socket_gone), one_client_unreachable) /\
  _current_expression (adapter_objs one_client_unreachable !!! 0%nat) = VInt 1.
Proof.
  destruct (trigger_notification_failure (E := quiet) 0%nat (VInt 5) (VInt 0)
              (VInt 0) (VDict [("expressions", VList [VInt 5])])
              (VStr "idle") (VInt 0) (VBool false) (VInt 0)
              one_client_unreachable socket_gone
              (fun msg => eq_refl) eq_refl) as (Hexpr & Hmotion & _).
  split; [exact Hexpr|]. split; [exact Hmotion | reflexivity].
Defined.
